(** * CTF scenario records: validation, factory and lifecycle

    A shallow embedding of
    - [backend/src/schemas/scenarios/ctf-scenario.schema.ts]
      (the record shapes, [CTF_CONSTRAINTS], [validateCTFScenario]), and
    - [backend/src/models/CTFScenario.model.ts]
      (the schemas with their setters and validators, the pre-save
      middleware, [publish], [archive], [saveDraft], [createCTFScenario],
      [validateCTFScenarioData]),
    followed by the properties of these functions.

    Conventions.  JavaScript strings are [string]s and [s.length] is
    [String.length s]; counters and timestamps are integers ([Z], a [Date]
    being its millisecond value), and a sum of Numbers is rounded as a
    double is; [undefined]/absent is [None].  The clock, the ObjectId
    generator and the store are the environment of a call: what they
    answer is threaded through a state monad and decided by no code
    here. *)

From Stdlib Require Import ZArith NArith Arith List Sorted String Ascii Bool Lia.
From Stdlib Require Import DecimalString.
From ExtLib Require Import Structures.Monad Structures.MonadState.
From ExtLib Require Import Data.Monads.StateMonad.
Import ListNotations.
Import MonadNotation.

Local Open Scope string_scope.
Local Open Scope monad_scope.

(* ===================================================================== *)
(** ** A few JavaScript primitives *)
(* ===================================================================== *)

Module JS.

(** [errors.push(x)]: the array grows at its end. *)
Definition push {A} (arr : list A) (x : A) : list A := arr ++ [x].

(** A number of a template literal [`${n}`], for a count or a length. *)
Definition Number_toString (n : nat) : string :=
  DecimalString.NilZero.string_of_uint (Nat.to_uint n).

(** Truthiness of a string: only the empty string is falsy. *)
Definition truthy_string (s : string) : bool :=
  match s with EmptyString => false | String _ _ => true end.

(** [x ? true : false] on a possibly absent object: objects are truthy. *)
Definition truthy_object {A} (o : option A) : bool :=
  match o with Some _ => true | None => false end.

(** An object literal [{ k: dflt, ...src }]: a key of the spread source
    replaces the value written before it. *)
Definition spread_over {A} (dflt : A) (src : option A) : A :=
  match src with Some v => v | None => dflt end.

(** Optional chaining [o?.k]. *)
Definition optchain {A B} (o : option A) (k : A -> option B) : option B :=
  match o with Some a => k a | None => None end.

(** White space as [String.prototype.trim] sees it, among the characters
    a [string] has here: tab, line feed, vertical tab, form feed, carriage
    return, space and no-break space. *)
Definition is_white_space (c : ascii) : bool :=
  existsb (Ascii.eqb c)
    ["009"; "010"; "011"; "012"; "013"; "032"; "160"]%char.

Fixpoint trimStart (s : string) : string :=
  match s with
  | EmptyString => EmptyString
  | String c s' => if is_white_space c then trimStart s' else s
  end.

Fixpoint trimEnd (s : string) : string :=
  match s with
  | EmptyString => EmptyString
  | String c s' =>
      match trimEnd s' with
      | EmptyString => if is_white_space c then EmptyString else String c EmptyString
      | t => String c t
      end
  end.

(** [s.trim()] *)
Definition trim (s : string) : string := trimEnd (trimStart s).

(** The Number an integer becomes: itself up to 2^53 in absolute value,
    beyond that the nearest multiple of the spacing of the doubles there,
    a tie going to the even one.  (Magnitudes beyond the largest double
    are not looked at.) *)
Definition to_Number (z : Z) : Z :=
  let a := Z.abs z in
  if (a <? 2 ^ 53)%Z then z
  else
    let q := (2 ^ (Z.log2 a - 52))%Z in
    let lo := (a / q * q)%Z in
    let r := (a - lo)%Z in
    let up :=
      if (q / 2 <? r)%Z || ((r =? q / 2)%Z && Z.odd (a / q))
      then (lo + q)%Z else lo in
    (Z.sgn z * up)%Z.

(** [a + b] on Numbers that hold integers. *)
Definition Number_add (a b : Z) : Z := to_Number (a + b).

(** What an awaited promise settles to. *)
Inductive Settled (A : Type) : Type :=
| Fulfilled (value : A)
| Rejected (reason : string).
Arguments Fulfilled {A} value.
Arguments Rejected {A} reason.

End JS.

(* ===================================================================== *)
(** ** Regular expressions *)
(* ===================================================================== *)

(** The fragment of the RegExp syntax the flag pattern is written in:
    literals, character classes, concatenation, alternation and the
    [*] and [+] quantifiers, with [^] and [$] at the two ends of the
    pattern.  There is no flag on the source's literal, so [^] and [$] are
    the ends of the input and a negated class takes any other code unit. *)
Module RegExp.

Inductive re : Type :=
| Void
| Eps
| Lit (c : ascii)
| Cls (negated : bool) (members : list ascii)
| Cat (r1 r2 : re)
| Alt (r1 r2 : re)
| Star (r : re).

(** [r+] *)
Definition Plus (r : re) : re := Cat r (Star r).

(** [.] with nothing excluded, used on an end without anchor. *)
Definition AnyChar : re := Cls true [].

Record RegExp : Type := mkRegExp {
  anchored_start : bool;   (* the pattern begins with ^ *)
  body : re;
  anchored_end : bool      (* the pattern ends with $ *)
}.

Definition ascii_mem (c : ascii) (cs : list ascii) : bool :=
  existsb (Ascii.eqb c) cs.

Definition cls_accepts (negated : bool) (members : list ascii) (c : ascii) : bool :=
  if negated then negb (ascii_mem c members) else ascii_mem c members.

Fixpoint nullable (r : re) : bool :=
  match r with
  | Void => false
  | Eps => true
  | Lit _ => false
  | Cls _ _ => false
  | Cat r1 r2 => nullable r1 && nullable r2
  | Alt r1 r2 => nullable r1 || nullable r2
  | Star _ => true
  end.

(** Derivative of [r] by the character [c]. *)
Fixpoint deriv (c : ascii) (r : re) : re :=
  match r with
  | Void => Void
  | Eps => Void
  | Lit a => if Ascii.eqb c a then Eps else Void
  | Cls n cs => if cls_accepts n cs c then Eps else Void
  | Cat r1 r2 =>
      if nullable r1
      then Alt (Cat (deriv c r1) r2) (deriv c r2)
      else Cat (deriv c r1) r2
  | Alt r1 r2 => Alt (deriv c r1) (deriv c r2)
  | Star r1 => Cat (deriv c r1) (Star r1)
  end.

(** The whole of [s] is a word of [r]. *)
Fixpoint matches (r : re) (s : string) : bool :=
  match s with
  | EmptyString => nullable r
  | String c s' => matches (deriv c r) s'
  end.

(** The expression a search for the pattern amounts to: an end without
    anchor may be preceded or followed by anything. *)
Definition searched (p : RegExp) : re :=
  Cat (if anchored_start p then Eps else Star AnyChar)
      (Cat (body p)
           (if anchored_end p then Eps else Star AnyChar)).

(** [pattern.test(s)] *)
Definition test (p : RegExp) (s : string) : bool := matches (searched p) s.

(** The words of an expression. *)
Inductive Lang : re -> string -> Prop :=
| L_Eps : Lang Eps ""
| L_Lit c : Lang (Lit c) (String c "")
| L_Cls n cs c : cls_accepts n cs c = true -> Lang (Cls n cs) (String c "")
| L_Cat r1 r2 s1 s2 : Lang r1 s1 -> Lang r2 s2 -> Lang (Cat r1 r2) (s1 ++ s2)
| L_AltL r1 r2 s : Lang r1 s -> Lang (Alt r1 r2) s
| L_AltR r1 r2 s : Lang r2 s -> Lang (Alt r1 r2) s
| L_StarNil r : Lang (Star r) ""
| L_StarApp r s1 s2 : Lang r s1 -> Lang (Star r) s2 -> Lang (Star r) (s1 ++ s2).

End RegExp.

(* ===================================================================== *)
(** ** ctf-scenario.schema.ts *)
(* ===================================================================== *)

Module CtfSchema.
Import JS.

Inductive ScenarioType := ctf.
Inductive ScenarioStatus := draft | pending_review | published | archived.
Inductive DifficultyLevel := beginner | intermediate | advanced | expert.
Inductive FlagValidationType := exact_match | regex | case_insensitive.
Inductive EnvironmentType :=
| web_application | pcap_file | ssh_access | virtual_network
| docker_container | cloud_environment | other.
Inductive HintLevel := minimal | guided | detailed.
Inductive SolutionDifficulty := easy | medium | hard.
Inductive CollaborationMode := individual | team.

Record CTFFile := {
  file_name : string;
  file_url : string;
  file_size : option string;
  file_description : option string;
  file_checksum : option string
}.

Record CTFEnvironment := {
  env_type : EnvironmentType;
  env_description : option string;
  required_tools : option (list string);
  access_info : option (list (string * string));  (* values as JSON text *)
  env_url : option string;
  credentials : option (string * string);     (* username, password *)
  files : option (list CTFFile);
  tech_stack : option (list string)
}.

Record CTFHint := {
  hint_id : Z;
  hint_level : HintLevel;
  hint_content : string;
  suggested_cost : Z;
  unlock_condition : option string
}.

Record CTFFeedbackTemplates := {
  correct : string;
  invalid_format : string;
  close : option string;
  wrong_approach : option string;
  time_warning : option string;
  custom_feedback : list (string * string)    (* [key: string]: string *)
}.

Record CTFSolution := {
  method : string;
  solution_difficulty : SolutionDifficulty;
  steps : list string;
  payload : option string;
  explanation : string;
  prerequisites : option (list string)
}.

Record EducationalContent := {
  what_is : string;
  how_it_works : string;
  real_world_examples : option (list string);
  prevention : string;
  related_topics : option (list string);
  references : option (list string)
}.

Record GamificationConfig := {
  show_leaderboard : bool;
  allow_retries : bool;
  retry_penalty : Z;
  time_bonus_enabled : bool;
  collaboration_mode : CollaborationMode
}.

Record CTFGameContent := {
  description : string;
  background_story : option string;
  flag : string;
  flag_format : string;
  flag_validation : FlagValidationType;
  flag_regex : option string;                  (* Required if validation is "regex" *)
  max_score : Z;
  environment : option CTFEnvironment;
  hints : list CTFHint;
  feedback_templates : CTFFeedbackTemplates;
  solutions : list CTFSolution;
  educational_content : option EducationalContent
}.

(** [BaseScenario] and [LLMConfig] are imported by the source from
    [base-scenario.schema.ts]; their fields are read off the sub-schemas
    of the same names in [CTFScenario.model.ts] ([BasicInfoSchema],
    [MetadataSchema], [LLMConfigSchema]), which mirror them.  The
    preset and style enumerations of [LLMConfig] are kept as strings and
    its levels, numbers between 0 and 1, as thousandths. *)
Record BasicInfo := {
  title : string;
  topic : string;
  subtopic : option string;
  difficulty : DifficultyLevel;
  estimated_time : Z;
  learning_objectives : list string;
  tags : list string
}.

Record LLMConfig := {
  preset : option string;
  creativity : option Z;
  hint_detail_level : option Z;
  feedback_detail_level : option Z;
  explanation_depth : option Z;
  hint_count : option Z;
  narrative_style : option string;
  communication_style : option string
}.

Record ScenarioMetadata := {
  created_at : Z;
  updated_at : Z;
  created_by : string;
  version : Z;
  status : ScenarioStatus;
  llm_generated : bool
}.

Record CTFScenario := {
  scenario_id : string;
  scenario_type : ScenarioType;
  basic_info : BasicInfo;
  game_content : CTFGameContent;
  llm_config : option LLMConfig;
  custom_instructions : option string;
  gamification_config : option GamificationConfig;
  metadata : ScenarioMetadata
}.

(** *** [CTF_CONSTRAINTS]

    The keys [description], [hints], [solutions], [flag] of the source
    object are field names of [CTFGameContent] already; here they carry the
    prefix [c_], and the two lengths of the flag entry the prefix [flag_]. *)

Record LengthRange := { min_length : nat; max_length : nat }.
Record CountRange := { min_count : nat; max_count : nat }.
Record CountFloor := { floor_min_count : nat }.
Record FlagConstraint := {
  pattern : RegExp.RegExp;
  flag_min_length : nat;
  flag_max_length : nat
}.

Record Constraints := {
  c_description : LengthRange;
  c_background_story : LengthRange;
  c_hints : CountRange;
  c_solutions : CountFloor;
  c_flag : FlagConstraint
}.

(** [/^CTF\{[^\}]+\}$/] *)
Definition flag_pattern : RegExp.RegExp :=
  RegExp.mkRegExp true
    (RegExp.Cat (RegExp.Lit "C")
    (RegExp.Cat (RegExp.Lit "T")
    (RegExp.Cat (RegExp.Lit "F")
    (RegExp.Cat (RegExp.Lit "{")
    (RegExp.Cat (RegExp.Plus (RegExp.Cls true ["}"%char]))
                (RegExp.Lit "}"))))))
    true.

Definition CTF_CONSTRAINTS : Constraints := {|
  c_description := {| min_length := 300; max_length := 600 |};
  c_background_story := {| min_length := 100; max_length := 300 |};
  c_hints := {| min_count := 3; max_count := 7 |};
  c_solutions := {| floor_min_count := 1 |};
  c_flag := {| pattern := flag_pattern;
               flag_min_length := 10;
               flag_max_length := 100 |}
|}.

Record ValidationResult := { valid : bool; errors : list string }.

(** *** [validateCTFScenario] *)
Definition validateCTFScenario (scenario : CTFScenario) : ValidationResult :=
  let errors : list string := [] in
  (* Validate description length *)
  let descLen := String.length (description (game_content scenario)) in
  let errors :=
    if (descLen <? min_length (c_description CTF_CONSTRAINTS))%nat
       || (max_length (c_description CTF_CONSTRAINTS) <? descLen)%nat
    then push errors
           ("Description must be "
              ++ Number_toString (min_length (c_description CTF_CONSTRAINTS))
              ++ "-"
              ++ Number_toString (max_length (c_description CTF_CONSTRAINTS))
              ++ " characters")
    else errors in
  (* Validate flag format *)
  let errors :=
    if negb (RegExp.test (pattern (c_flag CTF_CONSTRAINTS))
                         (flag (game_content scenario)))
    then push errors "Flag must match format CTF{...}"
    else errors in
  (* Validate hints count *)
  let hintCount := List.length (hints (game_content scenario)) in
  let errors :=
    if (hintCount <? min_count (c_hints CTF_CONSTRAINTS))%nat
       || (max_count (c_hints CTF_CONSTRAINTS) <? hintCount)%nat
    then push errors
           ("Must have "
              ++ Number_toString (min_count (c_hints CTF_CONSTRAINTS))
              ++ "-"
              ++ Number_toString (max_count (c_hints CTF_CONSTRAINTS))
              ++ " hints")
    else errors in
  (* Validate solutions count *)
  let errors :=
    if (List.length (solutions (game_content scenario))
          <? floor_min_count (c_solutions CTF_CONSTRAINTS))%nat
    then push errors
           ("Must have at least "
              ++ Number_toString (floor_min_count (c_solutions CTF_CONSTRAINTS))
              ++ " solution")
    else errors in
  {| valid := (List.length errors =? 0)%nat; errors := errors |}.

End CtfSchema.

(* ===================================================================== *)
(** ** CTFScenario.model.ts *)
(* ===================================================================== *)

Module CtfModel.
Import JS CtfSchema.

(** *** [Partial<CTFScenario>] *)
Module Partial.
Record CTFScenario := {
  scenario_id : option string;
  scenario_type : option ScenarioType;
  basic_info : option BasicInfo;
  game_content : option CTFGameContent;
  llm_config : option LLMConfig;
  custom_instructions : option string;
  gamification_config : option GamificationConfig;
  metadata : option ScenarioMetadata
}.
End Partial.

(** *** [CTFScenarioDocument]

    A document in memory: the paths of [CTFScenarioSchema] and Mongoose's
    [isNew].  A document built from a partial record may lack content
    paths; the lifecycle code reads and writes [metadata] only. *)
Module Doc.
Record CTFScenarioDocument := {
  scenario_id : string;
  scenario_type : ScenarioType;
  basic_info : option BasicInfo;
  game_content : option CTFGameContent;
  llm_config : option LLMConfig;
  custom_instructions : option string;
  gamification_config : option GamificationConfig;
  metadata : ScenarioMetadata;
  isNew : bool
}.

Definition with_metadata (this : CTFScenarioDocument) (m : ScenarioMetadata)
  : CTFScenarioDocument :=
  {| scenario_id := scenario_id this;
     scenario_type := scenario_type this;
     basic_info := basic_info this;
     game_content := game_content this;
     llm_config := llm_config this;
     custom_instructions := custom_instructions this;
     gamification_config := gamification_config this;
     metadata := m;
     isNew := isNew this |}.

Definition with_isNew (this : CTFScenarioDocument) (b : bool)
  : CTFScenarioDocument :=
  {| scenario_id := scenario_id this;
     scenario_type := scenario_type this;
     basic_info := basic_info this;
     game_content := game_content this;
     llm_config := llm_config this;
     custom_instructions := custom_instructions this;
     gamification_config := gamification_config this;
     metadata := metadata this;
     isNew := b |}.
End Doc.

Definition with_updated_at (m : ScenarioMetadata) (t : Z) : ScenarioMetadata :=
  {| created_at := created_at m; updated_at := t; created_by := created_by m;
     version := version m; status := status m;
     llm_generated := llm_generated m |}.

Definition with_version (m : ScenarioMetadata) (v : Z) : ScenarioMetadata :=
  {| created_at := created_at m; updated_at := updated_at m;
     created_by := created_by m; version := v; status := status m;
     llm_generated := llm_generated m |}.

Definition with_status (m : ScenarioMetadata) (s : ScenarioStatus) : ScenarioMetadata :=
  {| created_at := created_at m; updated_at := updated_at m;
     created_by := created_by m; version := version m; status := s;
     llm_generated := llm_generated m |}.

(** *** Virtual properties *)

Definition status_eqb (a b : ScenarioStatus) : bool :=
  match a, b with
  | draft, draft | pending_review, pending_review
  | published, published | archived, archived => true
  | _, _ => false
  end.

(* ['draft', 'pending_review'].includes(this.metadata.status) *)
Definition isEditable (this : Doc.CTFScenarioDocument) : bool :=
  existsb (status_eqb (status (Doc.metadata this))) [draft; pending_review].

Definition isPublished (this : Doc.CTFScenarioDocument) : bool :=
  status_eqb (status (Doc.metadata this)) published.

(** *** [validateCTFScenarioData]

    The argument is typed [any] in the source; it is taken here as a
    scenario of which any part may be missing, each part that is there
    having its declared type.  Only the paths the function reads are
    kept. *)
Module Data.
Record GameContent := {
  description : option string;
  flag : option string;
  hints : option (list CTFHint);
  solutions : option (list CTFSolution)
}.
Record BasicInfo := {
  learning_objectives : option (list string)
}.
Record Scenario := {
  game_content : option GameContent;
  basic_info : option BasicInfo
}.
End Data.

(** The pattern literal written in the function, the same as the one of
    [CTF_CONSTRAINTS]. *)
Definition inline_flag_pattern : RegExp.RegExp :=
  RegExp.mkRegExp true
    (RegExp.Cat (RegExp.Lit "C")
    (RegExp.Cat (RegExp.Lit "T")
    (RegExp.Cat (RegExp.Lit "F")
    (RegExp.Cat (RegExp.Lit "{")
    (RegExp.Cat (RegExp.Plus (RegExp.Cls true ["}"%char]))
                (RegExp.Lit "}"))))))
    true.

Definition validateCTFScenarioData (data : Data.Scenario) : ValidationResult :=
  let errors : list string := [] in
  (* Validate description length *)
  let errors :=
    match optchain (Data.game_content data) Data.description with
    | Some description =>
        if truthy_string description then
          let descLen := String.length description in
          if (descLen <? 300)%nat || (600 <? descLen)%nat
          then push errors
                 ("Description must be 300-600 characters (current: "
                    ++ Number_toString descLen ++ ")")
          else errors
        else errors
    | None => errors
    end in
  (* Validate flag format *)
  let errors :=
    match optchain (Data.game_content data) Data.flag with
    | Some flag =>
        if truthy_string flag then
          if negb (RegExp.test inline_flag_pattern flag)
          then push errors "Flag must match format CTF{...}"
          else errors
        else errors
    | None => errors
    end in
  (* Validate hints count *)
  let errors :=
    match optchain (Data.game_content data) Data.hints with
    | Some hints =>
        let hintCount := List.length hints in
        if (hintCount <? 3)%nat || (7 <? hintCount)%nat
        then push errors
               ("Must have 3-7 hints (current: "
                  ++ Number_toString hintCount ++ ")")
        else errors
    | None => errors
    end in
  (* Validate solutions count *)
  let errors :=
    match optchain (Data.game_content data) Data.solutions with
    | Some solutions =>
        if (List.length solutions <? 1)%nat
        then push errors "Must have at least 1 solution"
        else errors
    | None => errors
    end in
  (* Validate learning objectives *)
  let errors :=
    match optchain (Data.basic_info data) Data.learning_objectives with
    | Some learning_objectives =>
        if (List.length learning_objectives <? 1)%nat
        then push errors "Must have at least 1 learning objective"
        else errors
    | None => errors
    end in
  {| valid := (List.length errors =? 0)%nat; errors := errors |}.

End CtfModel.

(* ===================================================================== *)
(** ** Notions used to state the properties *)
(* ===================================================================== *)

Module Described.
Import JS CtfSchema CtfModel.

(** No character of [m] is a closing brace. *)
Definition brace_free (m : string) : Prop :=
  forall c, In c (list_ascii_of_string m) -> c <> "}"%char.

(** [CTF{<one or more characters other than }>}] *)
Definition flag_shape (s : string) : Prop :=
  exists m, s = "CTF{" ++ m ++ "}" /\ m <> "" /\ brace_free m.

(** The looser reading: the prefix, the suffix, and some character other
    than a closing brace somewhere in between. *)
Definition loose_flag_shape (s : string) : Prop :=
  exists m, s = "CTF{" ++ m ++ "}"
            /\ exists c, In c (list_ascii_of_string m) /\ c <> "}"%char.

(** *** Reading an error list

    The checks a validator may run, in the order of the source text, and
    the check a message reports on, recognised by how the message
    begins. *)
Inductive Check :=
| OnDescription | OnFlag | OnHints | OnSolutions | OnLearningObjectives.

Definition rank (k : Check) : nat :=
  match k with
  | OnDescription => 1
  | OnFlag => 2
  | OnHints => 3
  | OnSolutions => 4
  | OnLearningObjectives => 5
  end.

Definition heading (k : Check) : string :=
  match k with
  | OnDescription => "Description must be "
  | OnFlag => "Flag must match format "
  | OnHints => "Must have 3-7 hints"
  | OnSolutions => "Must have at least 1 solution"
  | OnLearningObjectives => "Must have at least 1 learning objective"
  end.

Definition concerns (k : Check) (msg : string) : bool :=
  String.prefix (heading k) msg.

(** How many messages of [errs] report on the check [k]. *)
Definition reported (k : Check) (errs : list string) : nat :=
  List.length (filter (concerns k) errs).

(** The rank of the check a message reports on; 0 for a foreign message. *)
Definition rank_of (msg : string) : nat :=
  if concerns OnDescription msg then rank OnDescription
  else if concerns OnFlag msg then rank OnFlag
  else if concerns OnHints msg then rank OnHints
  else if concerns OnSolutions msg then rank OnSolutions
  else if concerns OnLearningObjectives msg then rank OnLearningObjectives
  else 0.

(** Every message reports on a check, and on a later check than all the
    messages before it. *)
Definition in_check_order (errs : list string) : Prop :=
  Forall (fun m => (1 <= rank_of m)%nat) errs
  /\ StronglySorted (fun a b => (rank_of a < rank_of b)%nat) errs.

Definition within (lo hi n : nat) : bool := ((lo <=? n) && (n <=? hi))%nat.

(** What [validateCTFScenario] has to complain about. *)
Definition failing (scenario : CTFScenario) (k : Check) : bool :=
  match k with
  | OnDescription =>
      negb (within 300 600 (String.length (description (game_content scenario))))
  | OnFlag =>
      negb (RegExp.test flag_pattern (flag (game_content scenario)))
  | OnHints =>
      negb (within 3 7 (List.length (hints (game_content scenario))))
  | OnSolutions =>
      negb (1 <=? List.length (solutions (game_content scenario)))%nat
  | OnLearningObjectives => false       (* not looked at by this function *)
  end.

(** The value a check of [validateCTFScenarioData] is run on: a path that
    is missing, or holds the empty string, is passed over. *)
Definition present_text (o : option string) : option string :=
  match o with
  | Some s => if truthy_string s then Some s else None
  | None => None
  end.

Definition failing_if_present {A} (o : option A) (bad : A -> bool) : bool :=
  match o with Some a => bad a | None => false end.

(** What [validateCTFScenarioData] has to complain about. *)
Definition failing_data (data : Data.Scenario) (k : Check) : bool :=
  match k with
  | OnDescription =>
      failing_if_present
        (present_text (optchain (Data.game_content data) Data.description))
        (fun d => negb (within 300 600 (String.length d)))
  | OnFlag =>
      failing_if_present
        (present_text (optchain (Data.game_content data) Data.flag))
        (fun f => negb (RegExp.test flag_pattern f))
  | OnHints =>
      failing_if_present
        (optchain (Data.game_content data) Data.hints)
        (fun h => negb (within 3 7 (List.length h)))
  | OnSolutions =>
      failing_if_present
        (optchain (Data.game_content data) Data.solutions)
        (fun l => negb (1 <=? List.length l)%nat)
  | OnLearningObjectives =>
      failing_if_present
        (optchain (Data.basic_info data) Data.learning_objectives)
        (fun l => negb (1 <=? List.length l)%nat)
  end.

(** [report b m]: the message [m] if [b], nothing otherwise. *)
Definition report (b : bool) (msg : string) : list string :=
  if b then [msg] else [].

(** The reports of five checks, put together in the order of the checks,
    and the outcome of each check. *)
Definition collect (b1 b2 b3 b4 b5 : bool) (m1 m2 m3 m4 m5 : string)
  : list string :=
  (report b1 m1 ++ report b2 m2 ++ report b3 m3
     ++ report b4 m4 ++ report b5 m5)%list.

Definition verdict_of (b1 b2 b3 b4 b5 : bool) (k : Check) : bool :=
  match k with
  | OnDescription => b1
  | OnFlag => b2
  | OnHints => b3
  | OnSolutions => b4
  | OnLearningObjectives => b5
  end.

(** The numbers quoted in the messages of [validateCTFScenarioData]. *)
Definition text_length (o : option string) : nat :=
  match o with Some s => String.length s | None => 0 end.

Definition item_count {A} (o : option (list A)) : nat :=
  match o with Some l => List.length l | None => 0 end.

Definition description_message (data : Data.Scenario) : string :=
  "Description must be 300-600 characters (current: "
    ++ Number_toString
         (text_length (optchain (Data.game_content data) Data.description))
    ++ ")".

Definition hints_message (data : Data.Scenario) : string :=
  "Must have 3-7 hints (current: "
    ++ Number_toString
         (item_count (optchain (Data.game_content data) Data.hints))
    ++ ")".

(** *** Sample records *)

(** [n] times the letter a. *)
Fixpoint filler (n : nat) : string :=
  match n with
  | O => ""
  | S n' => String "a" (filler n')
  end.

Definition sample_hint (n : Z) : CTFHint := {|
  hint_id := n;
  hint_level := guided;
  hint_content := "Filter the capture on the login request.";
  suggested_cost := 5;
  unlock_condition := None
|}.

Definition sample_hints (n : nat) : list CTFHint :=
  map (fun i => sample_hint (Z.of_nat i)) (seq 1 n).

Definition sample_solution : CTFSolution := {|
  method := "Follow the TCP stream";
  solution_difficulty := easy;
  steps := ["Open the capture"; "Follow the stream"; "Read the flag"];
  payload := None;
  explanation := "The credentials travel in clear text.";
  prerequisites := None
|}.

Definition sample_feedback : CTFFeedbackTemplates := {|
  correct := "Well done.";
  invalid_format := "A flag looks like CTF{...}.";
  close := None;
  wrong_approach := None;
  time_warning := None;
  custom_feedback := []
|}.

Definition sample_basic_info : BasicInfo := {|
  title := "My CTF Challenge";
  topic := "Packet Sniffing";
  subtopic := None;
  difficulty := intermediate;
  estimated_time := 20;
  learning_objectives := ["Analyze packets"];
  tags := []
|}.

Definition sample_metadata (s : ScenarioStatus) : ScenarioMetadata := {|
  created_at := 1000;
  updated_at := 2000;
  created_by := "instructor@example.com";
  version := 3;
  status := s;
  llm_generated := false
|}.

(** A scenario with the given description, flag, hints, solutions and
    flag validation mode, and sample values elsewhere. *)
Definition scenario_with (desc flg : string) (hs : list CTFHint)
    (sols : list CTFSolution) (mode : FlagValidationType)
    (rx : option string) : CTFScenario := {|
  scenario_id := "uuid-123";
  scenario_type := ctf;
  basic_info := sample_basic_info;
  game_content := {|
    description := desc;
    background_story := None;
    flag := flg;
    flag_format := "CTF{...}";
    flag_validation := mode;
    flag_regex := rx;
    max_score := 100;
    environment := None;
    hints := hs;
    feedback_templates := sample_feedback;
    solutions := sols;
    educational_content := None
  |};
  llm_config := None;
  custom_instructions := None;
  gamification_config := None;
  metadata := sample_metadata draft
|}.

(** The same scenario asking for validation by regex without giving
    the regex. *)
Definition asking_regex_without_pattern (scenario : CTFScenario) : CTFScenario :=
  let g := game_content scenario in {|
  scenario_id := scenario_id scenario;
  scenario_type := scenario_type scenario;
  basic_info := basic_info scenario;
  game_content := {|
    description := description g;
    background_story := background_story g;
    flag := flag g;
    flag_format := flag_format g;
    flag_validation := regex;
    flag_regex := None;
    max_score := max_score g;
    environment := environment g;
    hints := hints g;
    feedback_templates := feedback_templates g;
    solutions := solutions g;
    educational_content := educational_content g
  |};
  llm_config := llm_config scenario;
  custom_instructions := custom_instructions scenario;
  gamification_config := gamification_config scenario;
  metadata := metadata scenario
|}.

(** The data handed to [validateCTFScenarioData], from its parts. *)
Definition data_with (desc flg : option string) (hs : option (list CTFHint))
    (sols : option (list CTFSolution)) (objs : option (list string))
  : Data.Scenario := {|
  Data.game_content := Some {|
    Data.description := desc;
    Data.flag := flg;
    Data.hints := hs;
    Data.solutions := sols
  |};
  Data.basic_info := Some {| Data.learning_objectives := objs |}
|}.

(** The empty object. *)
Definition empty_data : Data.Scenario :=
  {| Data.game_content := None; Data.basic_info := None |}.

(** *** More sample records *)

Definition sample_document (s : ScenarioStatus) (new : bool)
  : Doc.CTFScenarioDocument := {|
  Doc.scenario_id := "65cb0a1f9d3e2a0012345678";
  Doc.scenario_type := ctf;
  Doc.basic_info := Some sample_basic_info;
  Doc.game_content := None;
  Doc.llm_config := None;
  Doc.custom_instructions := None;
  Doc.gamification_config := None;
  Doc.metadata := sample_metadata s;
  Doc.isNew := new
|}.

Definition sample_llm_config : LLMConfig := {|
  preset := Some "balanced";
  creativity := Some 500%Z;
  hint_detail_level := None;
  feedback_detail_level := None;
  explanation_depth := None;
  hint_count := Some 5%Z;
  narrative_style := None;
  communication_style := None
|}.

(** The two scenarios on either side of the bounds. *)
Definition scenario_inside_bounds : CTFScenario :=
  scenario_with (filler 300) "CTF{x}" (sample_hints 7)
    [sample_solution] exact_match None.

Definition scenario_outside_bounds : CTFScenario :=
  scenario_with (filler 601) "CTF{x}" (sample_hints 2)
    [sample_solution] exact_match None.

End Described.

(* ===================================================================== *)
(** ** CTFScenario.model.ts, the rest of the file *)
(* ===================================================================== *)

(** The validators written in the sub-schemas, the [fullTitle] virtual
    and the [toJSON] transform. *)
Module CtfModelRest.
Import JS CtfSchema CtfModel.

(** The strings the difficulty levels are stored as. *)
Definition difficulty_name (d : DifficultyLevel) : string :=
  match d with
  | beginner => "beginner"
  | intermediate => "intermediate"
  | advanced => "advanced"
  | expert => "expert"
  end.

(** *** Validators of the sub-schemas *)

(* GameContentSchema.hints: hints.length >= 3 && hints.length <= 7 *)
Definition hints_validator (hints : list CTFHint) : bool :=
  ((3 <=? List.length hints) && (List.length hints <=? 7))%nat.

(* GameContentSchema.solutions: solutions.length >= 1 *)
Definition solutions_validator (solutions : list CTFSolution) : bool :=
  (1 <=? List.length solutions)%nat.

(* BasicInfoSchema.learning_objectives: objectives.length >= 1 *)
Definition learning_objectives_validator (objectives : list string) : bool :=
  (1 <=? List.length objectives)%nat.

(** *** The [fullTitle] virtual

    [`${this.basic_info.title} (${this.basic_info.difficulty})`]; reading
    [title] off a document without [basic_info] throws, which is [None]. *)
Definition fullTitle (this : Doc.CTFScenarioDocument) : option string :=
  match Doc.basic_info this with
  | Some info =>
      Some (title info ++ " (" ++ difficulty_name (difficulty info) ++ ")")
  | None => None
  end.

(** *** The [toJSON] transform

    The plain object [ret] is a list of keys with their values; [delete]
    takes a key out. *)
Definition own {V : Type} (key : string) (o : list (string * V)) : option V :=
  match List.find (fun kv => String.eqb (fst kv) key) o with
  | Some kv => Some (snd kv)
  | None => None
  end.

Definition delete {V : Type} (key : string) (o : list (string * V))
  : list (string * V) :=
  filter (fun kv => negb (String.eqb (fst kv) key)) o.

(* delete ret._id; delete ret.__v; return ret *)
Definition toJSON_transform {V : Type} (ret : list (string * V))
  : list (string * V) :=
  let ret := delete "_id" ret in
  let ret := delete "__v" ret in
  ret.

End CtfModelRest.

(* ===================================================================== *)
(** ** ctf-scenario.schema.ts, the type guard *)
(* ===================================================================== *)

(** [isCTFScenario] takes a value of type [any].  Such a value is kept
    here as undefined, null, a boolean, a number (NaN or an integer; a
    fraction behaves as a non-zero integer does), a string, or an object
    given by what its properties read as. *)
Module CtfSchemaRest.

Inductive Any :=
| JUndefined
| JNull
| JBoolean (b : bool)
| JNaN
| JNumber (n : Z)
| JString (s : string)
| JObject (get : string -> Any).

Definition truthy (v : Any) : bool :=
  match v with
  | JUndefined | JNull | JNaN => false
  | JBoolean b => b
  | JNumber n => negb (n =? 0)%Z
  | JString s => JS.truthy_string s
  | JObject _ => true
  end.

(** [v.key]: reading a property off undefined or null throws ([None]); a
    boolean, a number and a string have no property of the names asked for
    here. *)
Definition member (v : Any) (key : string) : option Any :=
  match v with
  | JUndefined | JNull => None
  | JBoolean _ | JNaN | JNumber _ | JString _ => Some JUndefined
  | JObject get => Some (get key)
  end.

(** [v === "literal"] *)
Definition strictly_equals_string (v : Any) (literal : string) : bool :=
  match v with
  | JString s => String.eqb s literal
  | _ => false
  end.

(* return scenario && scenario.scenario_type === "ctf"; *)
Definition isCTFScenario (scenario : Any) : option Any :=
  if truthy scenario
  then match member scenario "scenario_type" with
       | Some t => Some (JBoolean (strictly_equals_string t "ctf"))
       | None => None
       end
  else Some scenario.

End CtfSchemaRest.

(* ===================================================================== *)
(** ** CTFScenario.model.ts, building and saving a document *)
(* ===================================================================== *)

(** The schemas say what happens to a value that is set on a path (the
    [trim] setter) and what a document has to satisfy to be saved
    ([required], [minlength], [maxlength], [match], [min], [max], [enum]
    and the validator functions).  [save] validates, runs the pre-save
    middleware and writes, in this order. *)
Module CtfModelSaving.
Import JS CtfSchema CtfModel CtfModelRest.

(** *** Schema options *)

(* required: true, on a String path: the empty string does not do *)
Definition required_string (s : string) : bool := truthy_string s.

Definition minlength (n : nat) (s : string) : bool := (n <=? String.length s)%nat.
Definition maxlength (n : nat) (s : string) : bool := (String.length s <=? n)%nat.
Definition number_min (lo x : Z) : bool := (lo <=? x)%Z.
Definition number_max (hi x : Z) : bool := (x <=? hi)%Z.
Definition enum (allowed : list string) (s : string) : bool :=
  existsb (String.eqb s) allowed.

(* match: the pattern is not tried on the empty string *)
Definition match_pattern (p : RegExp.RegExp) (s : string) : bool :=
  match s with
  | EmptyString => true
  | _ => RegExp.test p s
  end.

(** Validators are not run on a path that is undefined. *)
Definition when_set {A : Type} (o : option A) (ok : A -> bool) : bool :=
  match o with Some a => ok a | None => true end.

(** A required sub-document: it has to be there and to be in order. *)
Definition required_doc {A : Type} (o : option A) (ok : A -> bool) : bool :=
  match o with Some a => ok a | None => false end.

(** *** The sub-schemas: what is trimmed, what is accepted *)

Definition HintSchema_set (h : CTFHint) : CTFHint := {|
  hint_id := hint_id h;
  hint_level := hint_level h;
  hint_content := trim (hint_content h);
  suggested_cost := suggested_cost h;
  unlock_condition := option_map trim (unlock_condition h)
|}.

Definition HintSchema_accepts (h : CTFHint) : bool :=
  required_string (hint_content h) && number_min 0 (suggested_cost h).

Definition SolutionSchema_set (x : CTFSolution) : CTFSolution := {|
  method := trim (method x);
  solution_difficulty := solution_difficulty x;
  steps := steps x;
  payload := option_map trim (payload x);
  explanation := trim (explanation x);
  prerequisites := prerequisites x
|}.

Definition SolutionSchema_accepts (x : CTFSolution) : bool :=
  required_string (method x)
  && forallb required_string (steps x)
  && required_string (explanation x).

Definition FileSchema_accepts (f : CTFFile) : bool :=
  required_string (file_name f) && required_string (file_url f).

Definition EnvironmentSchema_set (e : CTFEnvironment) : CTFEnvironment := {|
  env_type := env_type e;
  env_description := option_map trim (env_description e);
  required_tools := required_tools e;
  access_info := access_info e;
  env_url := option_map trim (env_url e);
  credentials := credentials e;
  files := files e;
  tech_stack := tech_stack e
|}.

Definition EnvironmentSchema_accepts (e : CTFEnvironment) : bool :=
  when_set (files e) (forallb FileSchema_accepts).

Definition EducationalContentSchema_set (c : EducationalContent)
  : EducationalContent := {|
  what_is := trim (what_is c);
  how_it_works := trim (how_it_works c);
  real_world_examples := real_world_examples c;
  prevention := trim (prevention c);
  related_topics := related_topics c;
  references := references c
|}.

Definition EducationalContentSchema_accepts (c : EducationalContent) : bool :=
  required_string (what_is c)
  && required_string (how_it_works c)
  && required_string (prevention c).

(* strict: false lets the custom keys through as they are *)
Definition FeedbackTemplatesSchema_set (t : CTFFeedbackTemplates)
  : CTFFeedbackTemplates := {|
  correct := trim (correct t);
  invalid_format := trim (invalid_format t);
  close := option_map trim (close t);
  wrong_approach := option_map trim (wrong_approach t);
  time_warning := option_map trim (time_warning t);
  custom_feedback := custom_feedback t
|}.

Definition FeedbackTemplatesSchema_accepts (t : CTFFeedbackTemplates) : bool :=
  required_string (correct t) && required_string (invalid_format t).

(** The pattern literal of the [flag] path, the same as the one of
    [CTF_CONSTRAINTS]. *)
Definition GameContentSchema_flag_match : RegExp.RegExp :=
  RegExp.mkRegExp true
    (RegExp.Cat (RegExp.Lit "C")
    (RegExp.Cat (RegExp.Lit "T")
    (RegExp.Cat (RegExp.Lit "F")
    (RegExp.Cat (RegExp.Lit "{")
    (RegExp.Cat (RegExp.Plus (RegExp.Cls true ["}"%char]))
                (RegExp.Lit "}"))))))
    true.

Definition GameContentSchema_set (g : CTFGameContent) : CTFGameContent := {|
  description := trim (description g);
  background_story := option_map trim (background_story g);
  flag := trim (flag g);
  flag_format := trim (flag_format g);
  flag_validation := flag_validation g;
  flag_regex := option_map trim (flag_regex g);
  max_score := max_score g;
  environment := option_map EnvironmentSchema_set (environment g);
  hints := map HintSchema_set (hints g);
  feedback_templates := FeedbackTemplatesSchema_set (feedback_templates g);
  solutions := map SolutionSchema_set (solutions g);
  educational_content :=
    option_map EducationalContentSchema_set (educational_content g)
|}.

Definition GameContentSchema_accepts (g : CTFGameContent) : bool :=
  (required_string (description g)
   && minlength 300 (description g) && maxlength 600 (description g))
  && when_set (background_story g)
       (fun s => minlength 100 s && maxlength 300 s)
  && (required_string (flag g)
      && match_pattern GameContentSchema_flag_match (flag g))
  && number_min 0 (max_score g)
  && when_set (environment g) EnvironmentSchema_accepts
  && (hints_validator (hints g) && forallb HintSchema_accepts (hints g))
  && FeedbackTemplatesSchema_accepts (feedback_templates g)
  && (solutions_validator (solutions g)
      && forallb SolutionSchema_accepts (solutions g))
  && when_set (educational_content g) EducationalContentSchema_accepts.

Definition BasicInfoSchema_set (b : BasicInfo) : BasicInfo := {|
  title := trim (title b);
  topic := trim (topic b);
  subtopic := option_map trim (subtopic b);
  difficulty := difficulty b;
  estimated_time := estimated_time b;
  learning_objectives := learning_objectives b;
  tags := map trim (tags b)
|}.

Definition BasicInfoSchema_accepts (b : BasicInfo) : bool :=
  (required_string (title b) && minlength 1 (title b) && maxlength 200 (title b))
  && required_string (topic b)
  && number_min 1 (estimated_time b)
  && learning_objectives_validator (learning_objectives b).

(* the levels of the configuration are kept as thousandths *)
Definition LLMConfigSchema_accepts (c : LLMConfig) : bool :=
  when_set (preset c)
    (enum ["beginner-friendly"; "balanced"; "challenge"; "custom"])
  && when_set (creativity c) (fun x => number_min 0 x && number_max 1000 x)
  && when_set (hint_detail_level c) (fun x => number_min 0 x && number_max 1000 x)
  && when_set (feedback_detail_level c)
       (fun x => number_min 0 x && number_max 1000 x)
  && when_set (explanation_depth c) (fun x => number_min 0 x && number_max 1000 x)
  && when_set (hint_count c) (fun x => number_min 3 x && number_max 7 x)
  && when_set (narrative_style c) (enum ["realistic"; "gamified"; "academic"])
  && when_set (communication_style c)
       (enum ["professional"; "friendly"; "mentor"; "peer"]).

Definition GamificationConfigSchema_accepts (c : GamificationConfig) : bool :=
  number_min 0 (retry_penalty c).

Definition MetadataSchema_accepts (m : ScenarioMetadata) : bool :=
  required_string (created_by m) && number_min 1 (version m).

(** What the document has to satisfy, path by path. *)
Definition CTFScenarioSchema_accepts (d : Doc.CTFScenarioDocument) : bool :=
  required_string (Doc.scenario_id d)
  && required_doc (Doc.basic_info d) BasicInfoSchema_accepts
  && required_doc (Doc.game_content d) GameContentSchema_accepts
  && when_set (Doc.llm_config d) LLMConfigSchema_accepts
  && when_set (Doc.custom_instructions d) (maxlength 2000)
  && when_set (Doc.gamification_config d) GamificationConfigSchema_accepts
  && MetadataSchema_accepts (Doc.metadata d).

(** [new CTFScenarioModel({ scenario_id, scenario_type, ...rest, metadata })]:
    the values go through the setters of their paths, and the document is
    new. *)
Definition new_CTFScenarioModel (id : string) (type : ScenarioType)
    (rest : Partial.CTFScenario) (md : ScenarioMetadata)
  : Doc.CTFScenarioDocument := {|
  Doc.scenario_id := id;
  Doc.scenario_type := type;
  Doc.basic_info := option_map BasicInfoSchema_set (Partial.basic_info rest);
  Doc.game_content := option_map GameContentSchema_set (Partial.game_content rest);
  Doc.llm_config := Partial.llm_config rest;
  Doc.custom_instructions := option_map trim (Partial.custom_instructions rest);
  Doc.gamification_config := Partial.gamification_config rest;
  Doc.metadata := md;
  Doc.isNew := true
|}.

(** *** The environment of a call

    Nothing of it is decided by the code: [clock] is the time last read,
    in milliseconds, and [advances] by how much the wall clock will have
    moved at each of the next readings, forwards or backwards; [oids] are
    the ObjectIds the generator hands out next; [writes] is what the store
    answers to the next writes, [None] when it takes the write and the
    reason when it refuses it (a duplicate key, a lost connection).  A list
    that is used up stands for no move, the identifier 0 and a write that
    is taken. *)
Record World := {
  clock : Z;
  advances : list Z;
  oids : list N;
  writes : list (option string)
}.

Definition Eff : Type -> Type := state World.

(** [new Date()] *)
Definition new_Date : Eff Z :=
  w <- get ;;
  let t := (clock w + hd 0%Z (advances w))%Z in
  put {| clock := t; advances := tl (advances w);
         oids := oids w; writes := writes w |} ;;
  ret t.

(** [new mongoose.Types.ObjectId()]: 12 bytes, as a number. *)
Definition ObjectId : Type := N.

Definition new_ObjectId : Eff ObjectId :=
  w <- get ;;
  put {| clock := clock w; advances := advances w;
         oids := tl (oids w); writes := writes w |} ;;
  ret (hd 0%N (oids w)).

Definition hex_digit (d : N) : ascii :=
  nth (N.to_nat d)
    ["0"; "1"; "2"; "3"; "4"; "5"; "6"; "7";
     "8"; "9"; "a"; "b"; "c"; "d"; "e"; "f"]%char "0"%char.

(** The last [width] hexadecimal digits of [n]. *)
Fixpoint hex_fixed (width : nat) (n : N) : string :=
  match width with
  | O => EmptyString
  | S width' =>
      hex_fixed width' (n / 16) ++ String (hex_digit (n mod 16)) EmptyString
  end.

(** [oid.toString()]: 24 hexadecimal digits. *)
Definition ObjectId_toString (o : ObjectId) : string := hex_fixed 24 o.

(** The write of a document to the collection. *)
Definition write_to_store : Eff (option string) :=
  w <- get ;;
  put {| clock := clock w; advances := advances w;
         oids := oids w; writes := tl (writes w) |} ;;
  ret (hd None (writes w)).

(** *** Pre-save middleware: [CTFScenarioSchema.pre('save', ...)] *)
Definition pre_save (this : Doc.CTFScenarioDocument) : Eff Doc.CTFScenarioDocument :=
  now <- new_Date ;;
  (* this.metadata.updated_at = new Date() *)
  let this := Doc.with_metadata this (with_updated_at (Doc.metadata this) now) in
  (* Increment version if not a new document *)
  let this :=
    if negb (Doc.isNew this)
    then Doc.with_metadata this
           (with_version (Doc.metadata this)
              (Number_add (version (Doc.metadata this)) 1))
    else this in
  ret this.

(** [this.save()]: the document is validated against the schema, and
    rejected if it fails; then the middleware runs; then the document is
    written, and is no longer new if the store takes it. *)
Definition save (this : Doc.CTFScenarioDocument)
  : Eff (Settled Doc.CTFScenarioDocument) :=
  if CTFScenarioSchema_accepts this then
    this <- pre_save this ;;
    answer <- write_to_store ;;
    match answer with
    | None => ret (Fulfilled (Doc.with_isNew this false))
    | Some reason => ret (Rejected reason)
    end
  else ret (Rejected "ValidationError").

(** *** Instance methods *)

(* Publish scenario *)
Definition publish (this : Doc.CTFScenarioDocument)
  : Eff (Settled Doc.CTFScenarioDocument) :=
  let this := Doc.with_metadata this (with_status (Doc.metadata this) published) in
  save this.

(* Archive scenario *)
Definition archive (this : Doc.CTFScenarioDocument)
  : Eff (Settled Doc.CTFScenarioDocument) :=
  let this := Doc.with_metadata this (with_status (Doc.metadata this) archived) in
  save this.

(* Save as draft *)
Definition saveDraft (this : Doc.CTFScenarioDocument)
  : Eff (Settled Doc.CTFScenarioDocument) :=
  let this := Doc.with_metadata this (with_status (Doc.metadata this) draft) in
  save this.

(** *** [createCTFScenario] *)
Definition createCTFScenario
    (scenarioData : Partial.CTFScenario) (instructorId : string)
  : Eff (Settled Doc.CTFScenarioDocument) :=
  oid <- new_ObjectId ;;
  created <- new_Date ;;
  updated <- new_Date ;;
  let scenario :=
    new_CTFScenarioModel
      (* scenario_id and scenario_type stand before ...scenarioData *)
      (spread_over (ObjectId_toString oid) (Partial.scenario_id scenarioData))
      (spread_over ctf (Partial.scenario_type scenarioData))
      scenarioData
      (* metadata stands after it: a metadata of scenarioData is dropped *)
      {| created_by := instructorId;
         created_at := created;
         updated_at := updated;
         version := 1;
         status := draft;
         llm_generated :=
           if truthy_object (Partial.llm_config scenarioData) then true else false
      |} in
  save scenario.

End CtfModelSaving.

(* ===================================================================== *)
(** ** Further notions used to state the properties *)
(* ===================================================================== *)

Module Further.
Import JS CtfSchema CtfModel CtfModelRest CtfModelSaving Described.

(** A scenario handed as it is to [validateCTFScenarioData]: every path
    the function reads is there. *)
Definition to_data (scenario : CTFScenario) : Data.Scenario := {|
  Data.game_content := Some {|
    Data.description := Some (description (game_content scenario));
    Data.flag := Some (flag (game_content scenario));
    Data.hints := Some (hints (game_content scenario));
    Data.solutions := Some (solutions (game_content scenario))
  |};
  Data.basic_info := Some {|
    Data.learning_objectives := Some (learning_objectives (basic_info scenario))
  |}
|}.

(** A path of some data is part of the same path of other data: it is
    missing, or it holds the same value. *)
Definition path_part_of {A : Type} (mine theirs : option A) : Prop :=
  mine = None \/ mine = theirs.

(** Data that is part of other data, path by path. *)
Definition part_of (mine theirs : Data.Scenario) : Prop :=
  path_part_of (optchain (Data.game_content mine) Data.description)
               (optchain (Data.game_content theirs) Data.description)
  /\ path_part_of (optchain (Data.game_content mine) Data.flag)
                  (optchain (Data.game_content theirs) Data.flag)
  /\ path_part_of (optchain (Data.game_content mine) Data.hints)
                  (optchain (Data.game_content theirs) Data.hints)
  /\ path_part_of (optchain (Data.game_content mine) Data.solutions)
                  (optchain (Data.game_content theirs) Data.solutions)
  /\ path_part_of (optchain (Data.basic_info mine) Data.learning_objectives)
                  (optchain (Data.basic_info theirs) Data.learning_objectives).

(** *** Reading the environment *)

(** The time the next [new Date()] reads in [w]. *)
Definition time_read (w : World) : Z := fst (runState new_Date w).

(** By how much the wall clock moves before its [i]-th coming reading
    (counted from 0). *)
Definition advance (w : World) (i : nat) : Z := nth i (advances w) 0%Z.

(** The ObjectId the generator hands out at its [i]-th coming call. *)
Definition coming_oid (w : World) (i : nat) : ObjectId := nth i (oids w) 0%N.

(** The store takes the next [n] writes. *)
Definition writes_taken (n : nat) (w : World) : Prop :=
  forall i : nat, i < n -> nth i (writes w) None = None.

(** The world after one save that was written: one reading of the clock
    and one answer of the store are used up. *)
Definition after_saving (w : World) : World :=
  snd (runState write_to_store (snd (runState new_Date w))).

(** The largest count from which a Number still goes up by one. *)
Definition countable (v : Z) : Prop := (Z.abs v < 2 ^ 53)%Z.

(** *** Calls on a document *)

Inductive Operation := Save | Publish | Archive | SaveDraft.

Definition call (op : Operation)
  : Doc.CTFScenarioDocument -> Eff (Settled Doc.CTFScenarioDocument) :=
  match op with
  | Save => save
  | Publish => publish
  | Archive => archive
  | SaveDraft => saveDraft
  end.

(** The status a call leaves the document in. *)
Definition status_after (op : Operation) (before : ScenarioStatus) : ScenarioStatus :=
  match op with
  | Save => before
  | Publish => published
  | Archive => archived
  | SaveDraft => draft
  end.

(** A caller awaiting one call after the other on the same document, and
    stopping at the first that is rejected. *)
Fixpoint call_all (ops : list Operation) (this : Doc.CTFScenarioDocument)
  : Eff (Settled Doc.CTFScenarioDocument) :=
  match ops with
  | [] => ret (Fulfilled this)
  | op :: rest =>
      r <- call op this ;;
      match r with
      | Fulfilled this' => call_all rest this'
      | Rejected reason => ret (Rejected reason)
      end
  end.

(** The status a run of calls leaves, from the status before it. *)
Definition status_after_all (ops : list Operation) (before : ScenarioStatus)
  : ScenarioStatus :=
  fold_left (fun st op => status_after op st) ops before.

(** [createCTFScenario], then a run of calls on the record it returns. *)
Definition create_then (ops : list Operation)
    (scenarioData : Partial.CTFScenario) (instructorId : string)
  : Eff (Settled Doc.CTFScenarioDocument) :=
  r <- createCTFScenario scenarioData instructorId ;;
  match r with
  | Fulfilled this => call_all ops this
  | Rejected reason => ret (Rejected reason)
  end.

(** The same document in another status. *)
Definition in_status (this : Doc.CTFScenarioDocument) (s : ScenarioStatus)
  : Doc.CTFScenarioDocument :=
  Doc.with_metadata this (with_status (Doc.metadata this) s).


(** The document [createCTFScenario] builds in [w] and hands to [save]. *)
Definition built (scenarioData : Partial.CTFScenario) (instructorId : string)
    (w : World) : Doc.CTFScenarioDocument :=
  new_CTFScenarioModel
    (spread_over (ObjectId_toString (coming_oid w 0))
       (Partial.scenario_id scenarioData))
    (spread_over ctf (Partial.scenario_type scenarioData))
    scenarioData
    {| created_by := instructorId;
       created_at := time_read w;
       updated_at := (time_read w + advance w 1)%Z;
       version := 1;
       status := draft;
       llm_generated := truthy_object (Partial.llm_config scenarioData) |}.

(** The world in which [createCTFScenario] calls [save]: an ObjectId is
    drawn and the clock was read twice. *)
Definition at_the_save (w : World) : World := {|
  clock := (time_read w + advance w 1)%Z;
  advances := tl (tl (advances w));
  oids := tl (oids w);
  writes := writes w
|}.

(** The place of a character in a list, the length of the list if it is
    not there; the value of a hexadecimal digit. *)
Fixpoint position (c : ascii) (l : list ascii) : nat :=
  match l with
  | [] => 0
  | x :: l' => if Ascii.eqb x c then 0 else S (position c l')
  end.

Definition hex_value (c : ascii) : N :=
  N.of_nat (position c
    ["0"; "1"; "2"; "3"; "4"; "5"; "6"; "7";
     "8"; "9"; "a"; "b"; "c"; "d"; "e"; "f"]%char).

(** An ObjectId has 12 bytes. *)
Definition twelve_bytes (o : ObjectId) : Prop := (o < 16 ^ 24)%N.

(** The world [createCTFScenario] leaves when the record was written. *)
Definition after_creating (w : World) : World := {|
  clock := (time_read w + advance w 1 + advance w 2)%Z;
  advances := tl (tl (tl (advances w)));
  oids := tl (oids w);
  writes := tl (writes w)
|}.

(** *** Records the schema accepts *)

Definition valid_game_content : CTFGameContent := {|
  description := filler 300;
  background_story := None;
  flag := "CTF{packet_master}";
  flag_format := "CTF{...}";
  flag_validation := exact_match;
  flag_regex := None;
  max_score := 100;
  environment := None;
  hints := sample_hints 3;
  feedback_templates := sample_feedback;
  solutions := [sample_solution];
  educational_content := None
|}.

(** A stored or new document with all that the schema requires. *)
Definition valid_document (s : ScenarioStatus) (new : bool)
  : Doc.CTFScenarioDocument := {|
  Doc.scenario_id := "65cb0a1f9d3e2a0012345678";
  Doc.scenario_type := ctf;
  Doc.basic_info := Some sample_basic_info;
  Doc.game_content := Some valid_game_content;
  Doc.llm_config := None;
  Doc.custom_instructions := None;
  Doc.gamification_config := None;
  Doc.metadata := {|
    created_at := 1769990000000;
    updated_at := 1769995000000;
    created_by := "instructor@example.com";
    version := (if new then 1 else 3);
    status := s;
    llm_generated := false
  |};
  Doc.isNew := new
|}.

(** What a caller hands to [createCTFScenario]: basic information and game
    content in order, a [metadata] of its own, and at will an identifier
    and an LLM configuration. *)
Definition valid_partial (own_id : option string) (cfg : option LLMConfig)
  : Partial.CTFScenario := {|
  Partial.scenario_id := own_id;
  Partial.scenario_type := None;
  Partial.basic_info := Some sample_basic_info;
  Partial.game_content := Some valid_game_content;
  Partial.llm_config := cfg;
  Partial.custom_instructions := None;
  Partial.gamification_config := None;
  Partial.metadata := Some (sample_metadata published)
|}.

(** The same game content with another description, and the same partial
    record with another game content. *)
Definition with_description (g : CTFGameContent) (desc : string)
  : CTFGameContent := {|
  description := desc;
  background_story := background_story g;
  flag := flag g;
  flag_format := flag_format g;
  flag_validation := flag_validation g;
  flag_regex := flag_regex g;
  max_score := max_score g;
  environment := environment g;
  hints := hints g;
  feedback_templates := feedback_templates g;
  solutions := solutions g;
  educational_content := educational_content g
|}.

Definition with_game_content (scenarioData : Partial.CTFScenario)
    (g : CTFGameContent) : Partial.CTFScenario := {|
  Partial.scenario_id := Partial.scenario_id scenarioData;
  Partial.scenario_type := Partial.scenario_type scenarioData;
  Partial.basic_info := Partial.basic_info scenarioData;
  Partial.game_content := Some g;
  Partial.llm_config := Partial.llm_config scenarioData;
  Partial.custom_instructions := Partial.custom_instructions scenarioData;
  Partial.gamification_config := Partial.gamification_config scenarioData;
  Partial.metadata := Partial.metadata scenarioData
|}.

(** The partial record with nothing in it. *)
Definition empty_partial : Partial.CTFScenario := {|
  Partial.scenario_id := None;
  Partial.scenario_type := None;
  Partial.basic_info := None;
  Partial.game_content := None;
  Partial.llm_config := None;
  Partial.custom_instructions := None;
  Partial.gamification_config := None;
  Partial.metadata := None
|}.

(** A world whose clock moves on, whose generator hands out two
    ObjectIds and whose store takes the writes it is given. *)
Definition sample_world : World := {|
  clock := 1770000000000;
  advances := [4; 0; 9; 250; 0; 1000]%Z;
  oids := [31504789817586564160918557304; 31504789817586564160918557305]%N;
  writes := [None; None; None; None; None; None]
|}.

(** A string read backwards. *)
Fixpoint backwards (s : string) : string :=
  match s with
  | EmptyString => EmptyString
  | String c s' => backwards s' ++ String c EmptyString
  end.

(** The last character of a string. *)
Fixpoint last_char (s : string) : option ascii :=
  match s with
  | EmptyString => None
  | String c EmptyString => Some c
  | String _ s' => last_char s'
  end.

(** How many closing braces a string has. *)
Fixpoint closing_braces (s : string) : nat :=
  match s with
  | EmptyString => 0
  | String c s' =>
      (if Ascii.eqb c "}" then 1 else 0) + closing_braces s'
  end.

(** A scenario in order as far as [validateCTFScenario] looks, with the
    given story, learning objectives and maximal score. *)
Definition scenario_beyond (story : option string) (objs : list string)
    (score : Z) : CTFScenario := {|
  scenario_id := "uuid-456";
  scenario_type := ctf;
  basic_info := {|
    title := "Another CTF Challenge";
    topic := "SQL Injection";
    subtopic := None;
    difficulty := expert;
    estimated_time := 45;
    learning_objectives := objs;
    tags := ["web"]
  |};
  game_content := {|
    description := filler 300;
    background_story := story;
    flag := "CTF{x}";
    flag_format := "CTF{...}";
    flag_validation := case_insensitive;
    flag_regex := None;
    max_score := score;
    environment := None;
    hints := sample_hints 7;
    feedback_templates := sample_feedback;
    solutions := [sample_solution];
    educational_content := None
  |};
  llm_config := Some sample_llm_config;
  custom_instructions := None;
  gamification_config := None;
  metadata := sample_metadata archived
|}.

End Further.

(* ===================================================================== *)
(** ** Strings *)
(* ===================================================================== *)

Section StringFacts.

Lemma append_nil_r (s : string) : s ++ "" = s.
Proof. induction s as [|c s IH]; simpl; [reflexivity | now rewrite IH]. Qed.

Lemma append_assoc (s1 s2 s3 : string) : (s1 ++ s2) ++ s3 = s1 ++ (s2 ++ s3).
Proof. induction s1 as [|c s1 IH]; simpl; [reflexivity | now rewrite IH]. Qed.

Lemma append_eq_nil (s1 s2 : string) : s1 ++ s2 = "" -> s1 = "" /\ s2 = "".
Proof. destruct s1; simpl; [auto | discriminate]. Qed.

Lemma append_eq_cons (s1 s2 : string) (c : ascii) (s : string) :
  s1 ++ s2 = String c s ->
  (s1 = "" /\ s2 = String c s) \/ (exists s1', s1 = String c s1' /\ s = s1' ++ s2).
Proof.
  destruct s1 as [|a s1]; simpl; intros H.
  - left; auto.
  - right. injection H as -> <-. now exists s1.
Qed.

Lemma list_ascii_of_string_append (s1 s2 : string) :
  list_ascii_of_string (s1 ++ s2)
  = (list_ascii_of_string s1 ++ list_ascii_of_string s2)%list.
Proof. induction s1 as [|c s1 IH]; simpl; [reflexivity | now rewrite IH]. Qed.

End StringFacts.

(* ===================================================================== *)
(** ** The matcher decides the words of an expression *)
(* ===================================================================== *)

Section Matcher.
Import RegExp.

Lemma Lang_Void_inv s : ~ Lang Void s.
Proof. intros H; inversion H. Qed.

Lemma Lang_Eps_inv s : Lang Eps s -> s = "".
Proof. intros H; now inversion H. Qed.

Lemma nullable_sound r : nullable r = true -> Lang r "".
Proof.
  induction r; simpl; intros H; try discriminate.
  - constructor.
  - apply andb_prop in H as [H1 H2].
    change "" with ("" ++ ""). constructor; auto.
  - apply orb_prop in H as [H|H]; [apply L_AltL | apply L_AltR]; auto.
  - constructor.
Qed.

Lemma nullable_complete r s : Lang r s -> s = "" -> nullable r = true.
Proof.
  induction 1; simpl; intros E; try discriminate; try reflexivity.
  - apply append_eq_nil in E as [-> ->]. now rewrite IHLang1, IHLang2.
  - now rewrite IHLang.
  - rewrite IHLang; [apply orb_true_r | assumption].
Qed.

Lemma deriv_sound c r : forall s, Lang (deriv c r) s -> Lang r (String c s).
Proof.
  induction r; simpl; intros s H.
  - inversion H.
  - inversion H.
  - destruct (Ascii.eqb_spec c c0) as [->|_].
    + apply Lang_Eps_inv in H as ->. constructor.
    + inversion H.
  - destruct (cls_accepts negated members c) eqn:E.
    + apply Lang_Eps_inv in H as ->. now constructor.
    + inversion H.
  - destruct (nullable r1) eqn:N.
    + inversion H; subst.
      * match goal with
        | K : Lang (Cat _ _) _ |- _ => inversion K; subst
        end.
        change (Lang (Cat r1 r2) (String c s1 ++ s2)).
        constructor; auto.
      * change (Lang (Cat r1 r2) ("" ++ String c s)).
        constructor; [now apply nullable_sound | auto].
    + inversion H; subst.
      change (Lang (Cat r1 r2) (String c s1 ++ s2)).
      constructor; auto.
  - inversion H; subst; [apply L_AltL | apply L_AltR]; auto.
  - inversion H; subst.
    change (Lang (Star r) (String c s1 ++ s2)).
    constructor; auto.
Qed.

Lemma deriv_complete r cs :
  Lang r cs -> forall c s, cs = String c s -> Lang (deriv c r) s.
Proof.
  induction 1; intros a t E; simpl; try discriminate.
  - injection E as -> <-. rewrite Ascii.eqb_refl. constructor.
  - injection E as -> <-. rewrite H. constructor.
  - apply append_eq_cons in E as [[-> ->] | (s1' & -> & ->)].
    + rewrite (nullable_complete _ _ H eq_refl).
      apply L_AltR. now apply IHLang2.
    + destruct (nullable r1).
      * apply L_AltL. constructor; [now apply IHLang1 | assumption].
      * constructor; [now apply IHLang1 | assumption].
  - apply L_AltL. now apply IHLang.
  - apply L_AltR. now apply IHLang.
  - apply append_eq_cons in E as [[-> ->] | (s1' & -> & ->)].
    + now apply IHLang2.
    + constructor; [now apply IHLang1 | assumption].
Qed.

Lemma matches_Lang s : forall r, matches r s = true <-> Lang r s.
Proof.
  induction s as [|c s IH]; intros r; simpl.
  - split; [apply nullable_sound | intros H; now apply nullable_complete with ""].
  - rewrite IH. split; [apply deriv_sound | intros H; now apply deriv_complete with (String c s)].
Qed.

End Matcher.

(* ===================================================================== *)
(** ** The flag pattern *)
(* ===================================================================== *)

Section FlagPattern.
Import RegExp CtfSchema CtfModel Described.

Lemma Lang_Lit_Cat c r s :
  Lang (Cat (Lit c) r) s <-> exists s', s = String c s' /\ Lang r s'.
Proof.
  split.
  - intros H. inversion H as [| | |? ? s1 s2 H1 H2| | | |]; subst.
    inversion H1; subst. simpl. eauto.
  - intros (s' & -> & H). change (String c s') with (String c "" ++ s').
    constructor; [constructor | assumption].
Qed.

Lemma Lang_Cat_Lit r c s :
  Lang (Cat r (Lit c)) s <-> exists m, s = m ++ String c "" /\ Lang r m.
Proof.
  split.
  - intros H. inversion H as [| | |? ? s1 s2 H1 H2| | | |]; subst.
    inversion H2; subst. eauto.
  - intros (m & -> & H). constructor; [assumption | constructor].
Qed.

Lemma Lang_Star_Cls n cs s :
  Lang (Star (Cls n cs)) s <->
  forall c, In c (list_ascii_of_string s) -> cls_accepts n cs c = true.
Proof.
  split.
  - intros H. remember (Star (Cls n cs)) as r eqn:E.
    induction H; try discriminate; injection E as ->.
    + intros c [].
    + intros c. rewrite list_ascii_of_string_append, in_app_iff.
      intros [Hin|Hin]; [| now apply IHLang2].
      inversion H; subst. destruct Hin as [<-|[]]. assumption.
  - induction s as [|a s IH]; intros H.
    + constructor.
    + change (String a s) with (String a "" ++ s). constructor.
      * constructor. apply H. now left.
      * apply IH. intros c Hc. apply H. now right.
Qed.

Lemma Lang_Plus_Cls n cs s :
  Lang (Plus (Cls n cs)) s <->
  s <> "" /\ forall c, In c (list_ascii_of_string s) -> cls_accepts n cs c = true.
Proof.
  unfold Plus. split.
  - intros H. inversion H as [| | |? ? s1 s2 H1 H2| | | |]; subst.
    inversion H1; subst. split; [discriminate |].
    simpl. intros a [<-|Hin]; [assumption |].
    now apply (proj1 (Lang_Star_Cls n cs s2)).
  - intros [Hne H]. destruct s as [|a s]; [congruence |].
    change (String a s) with (String a "" ++ s). constructor.
    + constructor. apply H. now left.
    + apply Lang_Star_Cls. intros c Hc. apply H. now right.
Qed.

Lemma not_brace_accepts c :
  cls_accepts true ["}"%char] c = true <-> c <> "}"%char.
Proof.
  unfold cls_accepts, ascii_mem. simpl. rewrite orb_false_r.
  destruct (Ascii.eqb_spec c "}"); simpl; split; congruence.
Qed.

Lemma Lang_anchored r s : Lang (Cat Eps (Cat r Eps)) s <-> Lang r s.
Proof.
  split.
  - intros H. inversion H as [| | |? ? s1 s2 H1 H2| | | |]; subst.
    apply Lang_Eps_inv in H1 as ->.
    inversion H2 as [| | |? ? t1 t2 K1 K2| | | |]; subst.
    apply Lang_Eps_inv in K2 as ->. simpl. now rewrite append_nil_r.
  - intros H. change s with ("" ++ s). constructor; [constructor |].
    rewrite <- (append_nil_r s). constructor; [assumption | constructor].
Qed.

(** The pattern accepts exactly the strings [CTF{m}] whose [m] is not
    empty and has no closing brace. *)
Lemma flag_pattern_shape s :
  RegExp.test flag_pattern s = true <-> flag_shape s.
Proof.
  unfold RegExp.test, searched, flag_pattern; simpl.
  rewrite matches_Lang, Lang_anchored.
  repeat setoid_rewrite Lang_Lit_Cat.
  setoid_rewrite Lang_Cat_Lit.
  setoid_rewrite Lang_Plus_Cls.
  unfold flag_shape, brace_free. split.
  - intros (s1 & -> & s2 & -> & s3 & -> & s4 & -> & m & -> & Hne & Hall).
    exists m. repeat split; auto.
    intros c Hc. apply not_brace_accepts. auto.
  - intros (m & -> & Hne & Hall). simpl.
    do 4 (eexists; split; [reflexivity |]).
    exists m. repeat split; auto.
    intros c Hc. apply not_brace_accepts. auto.
Qed.

Lemma inline_flag_pattern_eq : inline_flag_pattern = flag_pattern.
Proof. reflexivity. Qed.

End FlagPattern.

(* ===================================================================== *)
(** ** The two validators as ordered collections of reports *)
(* ===================================================================== *)

Section Validators.
Import JS CtfSchema CtfModel Described.

Lemma push_or_keep (errs : list string) (b : bool) (msg : string) :
  (if b then push errs msg else errs) = (errs ++ report b msg)%list.
Proof. destruct b; simpl; [reflexivity | now rewrite app_nil_r]. Qed.

Lemma out_of_range lo hi n :
  ((n <? lo)%nat || (hi <? n)%nat) = negb (within lo hi n).
Proof.
  unfold within.
  destruct (Nat.ltb_spec n lo), (Nat.ltb_spec hi n),
           (Nat.leb_spec lo n), (Nat.leb_spec n hi); simpl; try reflexivity; lia.
Qed.

Lemma below_floor lo n : (n <? lo)%nat = negb (lo <=? n)%nat.
Proof. destruct (Nat.ltb_spec n lo), (Nat.leb_spec lo n); simpl; try reflexivity; lia. Qed.

Lemma validateCTFScenario_errors scenario :
  errors (validateCTFScenario scenario)
  = (report (failing scenario OnDescription) "Description must be 300-600 characters"
     ++ report (failing scenario OnFlag) "Flag must match format CTF{...}"
     ++ report (failing scenario OnHints) "Must have 3-7 hints"
     ++ report (failing scenario OnSolutions) "Must have at least 1 solution")%list.
Proof.
  unfold validateCTFScenario; cbn [errors].
  rewrite !push_or_keep. cbn [CTF_CONSTRAINTS c_description c_hints c_solutions
    c_flag min_length max_length min_count max_count floor_min_count pattern].
  rewrite !out_of_range, below_floor. simpl app at 1.
  rewrite <- !app_assoc. reflexivity.
Qed.

Lemma validateCTFScenario_valid scenario :
  valid (validateCTFScenario scenario)
  = (List.length (errors (validateCTFScenario scenario)) =? 0)%nat.
Proof. reflexivity. Qed.

(** One gated check of [validateCTFScenarioData] on a list-valued path. *)
Lemma list_step {A} (o : option A) (errs acc : list string)
      (bad bad' : A -> bool) (msg : A -> string) (m0 : string) :
  errs = acc ->
  (forall a, bad a = bad' a) ->
  (forall a, o = Some a -> msg a = m0) ->
  match o with
  | Some a => if bad a then push errs (msg a) else errs
  | None => errs
  end = (acc ++ report (failing_if_present o bad') m0)%list.
Proof.
  intros -> Hbad Hmsg. destruct o as [a|]; simpl.
  - rewrite <- Hbad, (Hmsg a eq_refl). apply push_or_keep.
  - now rewrite app_nil_r.
Qed.

(** One gated check on a string-valued path: the empty string is falsy. *)
Lemma text_step (o : option string) (errs acc : list string)
      (bad bad' : string -> bool) (msg : string -> string) (m0 : string) :
  errs = acc ->
  (forall a, bad a = bad' a) ->
  (forall a, o = Some a -> msg a = m0) ->
  match o with
  | Some a =>
      if truthy_string a
      then if bad a then push errs (msg a) else errs
      else errs
  | None => errs
  end = (acc ++ report (failing_if_present (present_text o) bad') m0)%list.
Proof.
  intros -> Hbad Hmsg. destruct o as [a|]; simpl.
  - destruct (truthy_string a); simpl.
    + rewrite <- Hbad, (Hmsg a eq_refl). apply push_or_keep.
    + now rewrite app_nil_r.
  - now rewrite app_nil_r.
Qed.

Lemma validateCTFScenarioData_errors data :
  errors (validateCTFScenarioData data)
  = (report (failing_data data OnDescription) (description_message data)
     ++ report (failing_data data OnFlag) "Flag must match format CTF{...}"
     ++ report (failing_data data OnHints) (hints_message data)
     ++ report (failing_data data OnSolutions) "Must have at least 1 solution"
     ++ report (failing_data data OnLearningObjectives)
          "Must have at least 1 learning objective")%list.
Proof.
  rewrite <- (app_nil_l (report (failing_data data OnDescription) _)).
  rewrite !app_assoc.
  unfold validateCTFScenarioData, failing_data, description_message,
    hints_message; cbn [errors].
  apply list_step; [| intros; apply below_floor | reflexivity].
  apply list_step; [| intros; apply below_floor | reflexivity].
  apply list_step; [| intros; apply out_of_range | now intros a ->].
  apply text_step; [| reflexivity | reflexivity].
  apply text_step; [| intros; apply out_of_range | now intros a ->].
  reflexivity.
Qed.

Lemma validateCTFScenarioData_valid data :
  valid (validateCTFScenarioData data)
  = (List.length (errors (validateCTFScenarioData data)) =? 0)%nat.
Proof. reflexivity. Qed.

End Validators.

(* ===================================================================== *)
(** ** Reading an ordered collection of reports *)
(* ===================================================================== *)

Section Reports.
Import JS CtfSchema CtfModel Described.

Variables b1 b2 b3 b4 b5 : bool.
Variables m1 m2 m3 m4 m5 : string.

Hypothesis about1 : forall k, concerns k m1 = (rank k =? 1)%nat.
Hypothesis about2 : forall k, concerns k m2 = (rank k =? 2)%nat.
Hypothesis about3 : forall k, concerns k m3 = (rank k =? 3)%nat.
Hypothesis about4 : forall k, concerns k m4 = (rank k =? 4)%nat.
Hypothesis about5 : forall k, concerns k m5 = (rank k =? 5)%nat.

Lemma reported_collected k :
  reported k (collect b1 b2 b3 b4 b5 m1 m2 m3 m4 m5)
  = if verdict_of b1 b2 b3 b4 b5 k then 1 else 0.
Proof.
  unfold reported, collect, report.
  destruct b1, b2, b3, b4, b5; simpl;
    rewrite ?about1, ?about2, ?about3, ?about4, ?about5;
    destruct k; reflexivity.
Qed.

Lemma rank_of_by_concerns m i :
  (forall k, concerns k m = (rank k =? i)%nat) ->
  (1 <= i <= 5)%nat -> rank_of m = i.
Proof.
  intros H Hi. unfold rank_of. rewrite !H. simpl.
  destruct i as [|[|[|[|[|[|i]]]]]]; simpl; try reflexivity; lia.
Qed.

Lemma collected_in_check_order :
  in_check_order (collect b1 b2 b3 b4 b5 m1 m2 m3 m4 m5).
Proof.
  pose proof (rank_of_by_concerns m1 1 about1 ltac:(lia)) as R1.
  pose proof (rank_of_by_concerns m2 2 about2 ltac:(lia)) as R2.
  pose proof (rank_of_by_concerns m3 3 about3 ltac:(lia)) as R3.
  pose proof (rank_of_by_concerns m4 4 about4 ltac:(lia)) as R4.
  pose proof (rank_of_by_concerns m5 5 about5 ltac:(lia)) as R5.
  unfold in_check_order, collect, report.
  destruct b1, b2, b3, b4, b5; simpl; split;
    repeat constructor; rewrite ?R1, ?R2, ?R3, ?R4, ?R5; lia.
Qed.

Lemma collected_nil_iff :
  collect b1 b2 b3 b4 b5 m1 m2 m3 m4 m5 = []
  <-> forall k, verdict_of b1 b2 b3 b4 b5 k = false.
Proof.
  unfold collect, report. split.
  - intros H k. destruct b1, b2, b3, b4, b5; simpl in H;
      try discriminate; destruct k; reflexivity.
  - intros H.
    pose proof (H OnDescription) as H1. pose proof (H OnFlag) as H2.
    pose proof (H OnHints) as H3. pose proof (H OnSolutions) as H4.
    pose proof (H OnLearningObjectives) as H5. simpl in *.
    now rewrite H1, H2, H3, H4, H5.
Qed.

End Reports.

Section ValidatorReadings.
Import JS CtfSchema CtfModel Described.

Lemma about_fixed_description k :
  concerns k "Description must be 300-600 characters" = (rank k =? 1)%nat.
Proof. destruct k; reflexivity. Qed.

Lemma about_description data k :
  concerns k (description_message data) = (rank k =? 1)%nat.
Proof. destruct k; reflexivity. Qed.

Lemma about_flag k :
  concerns k "Flag must match format CTF{...}" = (rank k =? 2)%nat.
Proof. destruct k; reflexivity. Qed.

Lemma about_fixed_hints k :
  concerns k "Must have 3-7 hints" = (rank k =? 3)%nat.
Proof. destruct k; reflexivity. Qed.

Lemma about_hints data k :
  concerns k (hints_message data) = (rank k =? 3)%nat.
Proof. destruct k; reflexivity. Qed.

Lemma about_solutions k :
  concerns k "Must have at least 1 solution" = (rank k =? 4)%nat.
Proof. destruct k; reflexivity. Qed.

Lemma about_learning_objectives k :
  concerns k "Must have at least 1 learning objective" = (rank k =? 5)%nat.
Proof. destruct k; reflexivity. Qed.

(** [validateCTFScenario] has no fifth check: its report list is the one
    of five checks of which the last never fails. *)
Lemma validateCTFScenario_collected scenario :
  errors (validateCTFScenario scenario)
  = collect (failing scenario OnDescription) (failing scenario OnFlag)
      (failing scenario OnHints) (failing scenario OnSolutions)
      (failing scenario OnLearningObjectives)
      "Description must be 300-600 characters"
      "Flag must match format CTF{...}"
      "Must have 3-7 hints"
      "Must have at least 1 solution"
      "Must have at least 1 learning objective".
Proof.
  rewrite validateCTFScenario_errors. unfold collect. cbn [failing report].
  now rewrite app_nil_r.
Qed.

Lemma validateCTFScenarioData_collected data :
  errors (validateCTFScenarioData data)
  = collect (failing_data data OnDescription) (failing_data data OnFlag)
      (failing_data data OnHints) (failing_data data OnSolutions)
      (failing_data data OnLearningObjectives)
      (description_message data)
      "Flag must match format CTF{...}"
      (hints_message data)
      "Must have at least 1 solution"
      "Must have at least 1 learning objective".
Proof. apply validateCTFScenarioData_errors. Qed.

Lemma reported_full scenario k :
  reported k (errors (validateCTFScenario scenario))
  = if failing scenario k then 1 else 0.
Proof.
  rewrite validateCTFScenario_collected.
  rewrite (reported_collected _ _ _ _ _ _ _ _ _ _
             about_fixed_description about_flag about_fixed_hints
             about_solutions about_learning_objectives k).
  destruct k; reflexivity.
Qed.

Lemma ordered_full scenario :
  in_check_order (errors (validateCTFScenario scenario)).
Proof.
  rewrite validateCTFScenario_collected.
  apply collected_in_check_order;
    auto using about_fixed_description, about_flag, about_fixed_hints,
      about_solutions, about_learning_objectives.
Qed.

Lemma reported_data data k :
  reported k (errors (validateCTFScenarioData data))
  = if failing_data data k then 1 else 0.
Proof.
  rewrite validateCTFScenarioData_collected.
  rewrite (reported_collected _ _ _ _ _ _ _ _ _ _
             (about_description data) about_flag (about_hints data)
             about_solutions about_learning_objectives k).
  destruct k; reflexivity.
Qed.

Lemma ordered_data data :
  in_check_order (errors (validateCTFScenarioData data)).
Proof.
  rewrite validateCTFScenarioData_collected.
  apply collected_in_check_order;
    auto using about_description, about_flag, about_hints,
      about_solutions, about_learning_objectives.
Qed.

Lemma valid_full_iff scenario :
  valid (validateCTFScenario scenario) = true
  <-> forall k, failing scenario k = false.
Proof.
  rewrite validateCTFScenario_valid, Nat.eqb_eq, length_zero_iff_nil.
  rewrite validateCTFScenario_collected.
  apply (collected_nil_iff (failing scenario OnDescription)
           (failing scenario OnFlag) (failing scenario OnHints)
           (failing scenario OnSolutions)
           (failing scenario OnLearningObjectives)).
Qed.

Lemma valid_data_iff data :
  valid (validateCTFScenarioData data) = true
  <-> forall k, failing_data data k = false.
Proof.
  rewrite validateCTFScenarioData_valid, Nat.eqb_eq, length_zero_iff_nil.
  rewrite validateCTFScenarioData_collected.
  apply (collected_nil_iff (failing_data data OnDescription)
           (failing_data data OnFlag) (failing_data data OnHints)
           (failing_data data OnSolutions)
           (failing_data data OnLearningObjectives)).
Qed.

End ValidatorReadings.

(* ===================================================================== *)
(** ** Properties of the validators *)
(* ===================================================================== *)

Section ValidationProperties.
Import JS CtfSchema CtfModel Described.

Lemma length_filler n : String.length (filler n) = n.
Proof. induction n; simpl; congruence. Qed.

Lemma length_append (s1 s2 : string) :
  String.length (s1 ++ s2) = String.length s1 + String.length s2.
Proof. induction s1 as [|c s1 IH]; simpl; [reflexivity | now rewrite IH]. Qed.

Lemma filler_brace_free n : brace_free (filler n).
Proof.
  unfold brace_free. induction n as [|n IH]; simpl; intros c H.
  - contradiction.
  - destruct H as [<-|H]; [discriminate | now apply IH].
Qed.

(** C3.  Both validators run all their checks whatever the outcome of
    the earlier ones: a check that fails leaves exactly one message, a
    check that passes (or, in [validateCTFScenarioData], is passed over)
    leaves none, and the messages stand in the order description, flag,
    hints, solutions, learning objectives; the answer is valid exactly when
    no check fails.  [validateCTFScenario] runs
    the first four of these checks, [validateCTFScenarioData] all five. *)
Theorem validation_collects_every_failure_in_check_order :
  (forall scenario : CTFScenario,
      let r := validateCTFScenario scenario in
      in_check_order (errors r)
      /\ (forall k, reported k (errors r) = if failing scenario k then 1 else 0)
      /\ List.length (errors r)
         = List.length (filter (failing scenario)
             [OnDescription; OnFlag; OnHints; OnSolutions])
      /\ (valid r = true <-> forall k, failing scenario k = false))
  /\ (forall data : Data.Scenario,
      let r := validateCTFScenarioData data in
      in_check_order (errors r)
      /\ (forall k, reported k (errors r) = if failing_data data k then 1 else 0)
      /\ List.length (errors r)
         = List.length (filter (failing_data data)
             [OnDescription; OnFlag; OnHints; OnSolutions; OnLearningObjectives])
      /\ (valid r = true <-> forall k, failing_data data k = false))
  /\ errors (validateCTFScenario
               (scenario_with "too short" "CTF{}" [] [sample_solution]
                  exact_match None))
     = ["Description must be 300-600 characters";
        "Flag must match format CTF{...}";
        "Must have 3-7 hints"]
  /\ errors (validateCTFScenarioData
               (data_with (Some "too short") (Some "CTF[x]") (Some [])
                  (Some []) (Some [])))
     = ["Description must be 300-600 characters (current: 9)";
        "Flag must match format CTF{...}";
        "Must have 3-7 hints (current: 0)";
        "Must have at least 1 solution";
        "Must have at least 1 learning objective"].
Proof.
  split; [| split; [| split; reflexivity]].
  - intros scenario r. subst r.
    split; [apply ordered_full |].
    split; [apply reported_full |].
    split; [| apply valid_full_iff].
    rewrite validateCTFScenario_errors. unfold report. cbn [filter].
    destruct (failing scenario OnDescription), (failing scenario OnFlag),
      (failing scenario OnHints), (failing scenario OnSolutions); reflexivity.
  - intros data r. subst r.
    split; [apply ordered_data |].
    split; [apply reported_data |].
    split; [| apply valid_data_iff].
    rewrite validateCTFScenarioData_errors. unfold report. cbn [filter].
    destruct (failing_data data OnDescription), (failing_data data OnFlag),
      (failing_data data OnHints), (failing_data data OnSolutions),
      (failing_data data OnLearningObjectives); reflexivity.
Qed.

(** The flag check of the record validator reads the pattern only. *)
Lemma flag_report_iff scenario :
  reported OnFlag (errors (validateCTFScenario scenario)) = 0
  <-> RegExp.test flag_pattern (flag (game_content scenario)) = true.
Proof.
  rewrite reported_full. cbn [failing].
  destruct (RegExp.test flag_pattern (flag (game_content scenario)));
    simpl; split; congruence.
Qed.

(** C5, as worded.  A flag with the prefix, the suffix and some character
    other than a closing brace in between, which the check turns down:
    a closing brace inside the braces is enough to fail. *)
Lemma loose_flag_shape_is_not_enough :
  loose_flag_shape "CTF{a}b}"
  /\ RegExp.test (pattern (c_flag CTF_CONSTRAINTS)) "CTF{a}b}" = false
  /\ reported OnFlag
       (errors (validateCTFScenario
                  (scenario_with (filler 300) "CTF{a}b}" (sample_hints 3)
                     [sample_solution] exact_match None))) = 1.
Proof.
  split; [| split; vm_compute; reflexivity].
  exists "a}b". split; [reflexivity |].
  exists "a"%char. split; [simpl; auto | discriminate].
Qed.

(** C5, amended.  The flag check passes a string exactly when it is
    [CTF{], then one or more characters none of which is a closing
    brace, then [}]; so [CTF{}], [CTF[x]], a string without the prefix
    and a string without the suffix all fail it. *)
Theorem flag_check_passes_exactly_the_flag_shape :
  (forall s : string,
      RegExp.test (pattern (c_flag CTF_CONSTRAINTS)) s = true <-> flag_shape s)
  /\ (forall scenario : CTFScenario,
      reported OnFlag (errors (validateCTFScenario scenario)) = 0
      <-> flag_shape (flag (game_content scenario)))
  /\ RegExp.test (pattern (c_flag CTF_CONSTRAINTS)) "CTF{}" = false
  /\ RegExp.test (pattern (c_flag CTF_CONSTRAINTS)) "CTF[x]" = false
  /\ RegExp.test (pattern (c_flag CTF_CONSTRAINTS)) "flag{x}" = false
  /\ RegExp.test (pattern (c_flag CTF_CONSTRAINTS)) "CTF{x" = false.
Proof.
  split; [exact flag_pattern_shape |].
  split; [| repeat split; reflexivity].
  intros scenario. rewrite flag_report_iff. apply flag_pattern_shape.
Qed.

Lemma flag_check_passes_exactly_the_flag_shape_witness :
  flag_shape "CTF{packet_master}"
  /\ reported OnFlag
       (errors (validateCTFScenario
                  (scenario_with (filler 300) "CTF{packet_master}"
                     (sample_hints 3) [sample_solution] exact_match None))) = 0.
Proof.
  destruct flag_check_passes_exactly_the_flag_shape as (H1 & H2 & _).
  assert (K : flag_shape "CTF{packet_master}").
  { apply (proj1 (H1 "CTF{packet_master}")). reflexivity. }
  split; [exact K |].
  apply (proj2 (H2 (scenario_with (filler 300) "CTF{packet_master}"
                      (sample_hints 3) [sample_solution] exact_match None))).
  exact K.
Defined.

(** C6.  The bounds are inclusive at both ends: a description of 300 to
    600 characters draws no description message, one of 299 or of 601
    characters draws exactly one; 3 or 7 hints draw no hints message, 2 or
    8 hints draw one.  The same holds of [validateCTFScenarioData] on a
    description and on hints that are given. *)
Theorem length_and_count_bounds_are_inclusive :
  (forall scenario : CTFScenario,
      let n := String.length (description (game_content scenario)) in
      let h := List.length (hints (game_content scenario)) in
      let errs := errors (validateCTFScenario scenario) in
      (300 <= n <= 600 -> reported OnDescription errs = 0)
      /\ (n = 299 \/ n = 601 -> reported OnDescription errs = 1)
      /\ (h = 3 \/ h = 7 -> reported OnHints errs = 0)
      /\ (h = 2 \/ h = 8 -> reported OnHints errs = 1))
  /\ (forall (data : Data.Scenario) (d : string) (hs : list CTFHint),
      optchain (Data.game_content data) Data.description = Some d ->
      optchain (Data.game_content data) Data.hints = Some hs ->
      let n := String.length d in
      let h := List.length hs in
      let errs := errors (validateCTFScenarioData data) in
      (300 <= n <= 600 -> reported OnDescription errs = 0)
      /\ (n = 299 \/ n = 601 -> reported OnDescription errs = 1)
      /\ (h = 3 \/ h = 7 -> reported OnHints errs = 0)
      /\ (h = 2 \/ h = 8 -> reported OnHints errs = 1)).
Proof.
  split.
  - intros scenario n h errs. subst errs. rewrite !reported_full.
    cbn [failing]. fold n h. unfold within.
    repeat split; intros H;
      repeat match goal with
             | |- context [(?a <=? ?b)%nat] => destruct (Nat.leb_spec a b)
             end; simpl; try reflexivity; lia.
  - intros data d hs Hd Hh n h errs. subst errs. rewrite !reported_data.
    cbn [failing_data]. rewrite Hd, Hh. cbn [failing_if_present].
    subst n h. unfold within.
    destruct d as [|a d];
      cbn [present_text truthy_string failing_if_present];
      repeat split; intros H;
      repeat match goal with
             | |- context [(?a <=? ?b)%nat] => destruct (Nat.leb_spec a b)
             end; simpl in *; try reflexivity; lia.
Qed.

Lemma length_and_count_bounds_are_inclusive_witness :
  reported OnDescription (errors (validateCTFScenario scenario_inside_bounds)) = 0
  /\ reported OnHints (errors (validateCTFScenario scenario_inside_bounds)) = 0
  /\ reported OnDescription (errors (validateCTFScenario scenario_outside_bounds)) = 1
  /\ reported OnHints (errors (validateCTFScenario scenario_outside_bounds)) = 1.
Proof.
  destruct (proj1 length_and_count_bounds_are_inclusive scenario_inside_bounds)
    as (I1 & _ & I3 & _).
  destruct (proj1 length_and_count_bounds_are_inclusive scenario_outside_bounds)
    as (_ & O2 & _ & O4).
  split; [apply I1; vm_compute; lia |].
  split; [apply I3; right; reflexivity |].
  split; [apply O2; right; reflexivity |].
  apply O4; left; reflexivity.
Defined.

(** C8.  [validateCTFScenarioData] says nothing about a path that is not
    there: without a description no description message, and so on for
    the flag, the hints, the solutions and the learning objectives; on
    the empty object it answers valid with no message. *)
Theorem partial_validation_passes_over_absent_fields :
  (forall data : Data.Scenario,
      let errs := errors (validateCTFScenarioData data) in
      (optchain (Data.game_content data) Data.description = None ->
       reported OnDescription errs = 0)
      /\ (optchain (Data.game_content data) Data.flag = None ->
          reported OnFlag errs = 0)
      /\ (optchain (Data.game_content data) Data.hints = None ->
          reported OnHints errs = 0)
      /\ (optchain (Data.game_content data) Data.solutions = None ->
          reported OnSolutions errs = 0)
      /\ (optchain (Data.basic_info data) Data.learning_objectives = None ->
          reported OnLearningObjectives errs = 0))
  /\ validateCTFScenarioData empty_data = {| valid := true; errors := [] |}.
Proof.
  split; [| reflexivity].
  intros data errs. subst errs. rewrite !reported_data. cbn [failing_data].
  repeat split; intros ->; reflexivity.
Qed.

Lemma partial_validation_passes_over_absent_fields_witness :
  reported OnDescription
    (errors (validateCTFScenarioData (data_with None None None None None))) = 0
  /\ reported OnFlag
       (errors (validateCTFScenarioData (data_with None None None None None))) = 0
  /\ reported OnHints
       (errors (validateCTFScenarioData (data_with None None None None None))) = 0
  /\ reported OnSolutions
       (errors (validateCTFScenarioData (data_with None None None None None))) = 0
  /\ reported OnLearningObjectives
       (errors (validateCTFScenarioData (data_with None None None None None))) = 0.
Proof.
  destruct (proj1 partial_validation_passes_over_absent_fields
              (data_with None None None None None))
    as (H1 & H2 & H3 & H4 & H5).
  exact (conj (H1 eq_refl) (conj (H2 eq_refl) (conj (H3 eq_refl)
           (conj (H4 eq_refl) (H5 eq_refl))))).
Defined.

(** C10.  The length bounds written next to the flag pattern are read by
    no validator: a flag the pattern accepts draws no flag message
    whatever its length, be it shorter than [min_length] as [CTF{x}] is or
    longer than [max_length]; there is an accepted flag of every length
    from 6 on. *)
Theorem flag_length_bounds_are_not_enforced :
  (forall scenario : CTFScenario,
      RegExp.test (pattern (c_flag CTF_CONSTRAINTS))
                  (flag (game_content scenario)) = true ->
      reported OnFlag (errors (validateCTFScenario scenario)) = 0)
  /\ (forall (data : Data.Scenario) (f : string),
      optchain (Data.game_content data) Data.flag = Some f ->
      RegExp.test (pattern (c_flag CTF_CONSTRAINTS)) f = true ->
      reported OnFlag (errors (validateCTFScenarioData data)) = 0)
  /\ (String.length "CTF{x}" = 6
      /\ String.length "CTF{x}" < flag_min_length (c_flag CTF_CONSTRAINTS)
      /\ validateCTFScenario
           (scenario_with (filler 300) "CTF{x}" (sample_hints 3)
              [sample_solution] exact_match None)
         = {| valid := true; errors := [] |})
  /\ (flag_max_length (c_flag CTF_CONSTRAINTS)
        < String.length ("CTF{" ++ filler 200 ++ "}")
      /\ validateCTFScenario
           (scenario_with (filler 300) ("CTF{" ++ filler 200 ++ "}")
              (sample_hints 3) [sample_solution] exact_match None)
         = {| valid := true; errors := [] |})
  /\ (forall n : nat,
        String.length ("CTF{" ++ filler (S n) ++ "}") = n + 6
        /\ RegExp.test (pattern (c_flag CTF_CONSTRAINTS))
                       ("CTF{" ++ filler (S n) ++ "}") = true).
Proof.
  split; [| split; [| split; [| split]]].
  - intros scenario H. now apply flag_report_iff.
  - intros data f Hf H. rewrite reported_data. cbn [failing_data].
    rewrite Hf. change (pattern (c_flag CTF_CONSTRAINTS)) with flag_pattern in H.
    destruct f; simpl; [reflexivity | now rewrite H].
  - split; [reflexivity | split; [vm_compute; lia | vm_compute; reflexivity]].
  - split; [vm_compute; lia | vm_compute; reflexivity].
  - intros n. split.
    + simpl. rewrite length_append, length_filler. simpl. lia.
    + apply flag_pattern_shape. exists (filler (S n)).
      split; [reflexivity | split; [discriminate | apply filler_brace_free]].
Qed.

Lemma flag_length_bounds_are_not_enforced_witness :
  reported OnFlag
    (errors (validateCTFScenario
               (scenario_with (filler 300) "CTF{x}" (sample_hints 3)
                  [sample_solution] exact_match None))) = 0
  /\ reported OnFlag
       (errors (validateCTFScenarioData
                  (data_with None (Some "CTF{x}") None None None))) = 0.
Proof.
  destruct flag_length_bounds_are_not_enforced as (H1 & H2 & _).
  split.
  - apply H1. reflexivity.
  - apply (H2 _ "CTF{x}"); reflexivity.
Defined.

(** C7, what the code does.  Neither the mode nor the regex is read by
    [validateCTFScenario]: asking for validation by regex and giving no
    regex changes nothing to its answer, and a scenario that does so and
    is otherwise in order is reported valid. *)
Theorem regex_mode_without_regex_is_accepted :
  (forall scenario : CTFScenario,
      validateCTFScenario (asking_regex_without_pattern scenario)
      = validateCTFScenario scenario)
  /\ (let s := scenario_with (filler 300) "CTF{packet_master}"
                 (sample_hints 3) [sample_solution] regex None in
      flag_validation (game_content s) = regex
      /\ flag_regex (game_content s) = None
      /\ validateCTFScenario s = {| valid := true; errors := [] |}).
Proof.
  split; [reflexivity |].
  split; [reflexivity | split; [reflexivity | vm_compute; reflexivity]].
Qed.

End ValidationProperties.

(* ===================================================================== *)
(** ** More on the validators *)
(* ===================================================================== *)

Section MoreValidation.
Import JS CtfSchema CtfModel CtfModelRest Described Further.

Lemma in_check_order_NoDup (errs : list string) :
  in_check_order errs -> NoDup errs.
Proof.
  intros [_ H]. induction H as [|m l Hs IH Hall]; constructor; [| exact IH].
  intros Hin. rewrite Forall_forall in Hall. specialize (Hall m Hin). lia.
Qed.

Lemma b2n_le_1 (b : bool) : Nat.b2n b <= 1.
Proof. destruct b; simpl; lia. Qed.

Lemma length_collect b1 b2 b3 b4 b5 m1 m2 m3 m4 m5 :
  List.length (collect b1 b2 b3 b4 b5 m1 m2 m3 m4 m5)
  = Nat.b2n b1 + Nat.b2n b2 + Nat.b2n b3 + Nat.b2n b4 + Nat.b2n b5.
Proof. destruct b1, b2, b3, b4, b5; reflexivity. Qed.

(** X1.  [validateCTFScenario] reads the description, the flag, the number
    of hints and the number of solutions, and nothing else: two scenarios
    that agree on these get the same answer, whatever their background
    story, learning objectives, score, environment or metadata. *)
Theorem validateCTFScenario_reads_four_things :
  forall s1 s2 : CTFScenario,
    description (game_content s1) = description (game_content s2) ->
    flag (game_content s1) = flag (game_content s2) ->
    List.length (hints (game_content s1))
    = List.length (hints (game_content s2)) ->
    List.length (solutions (game_content s1))
    = List.length (solutions (game_content s2)) ->
    validateCTFScenario s1 = validateCTFScenario s2.
Proof.
  intros s1 s2 Hd Hf Hh Hs. unfold validateCTFScenario.
  rewrite Hd, Hf, Hh, Hs. reflexivity.
Qed.

Lemma validateCTFScenario_reads_four_things_witness :
  validateCTFScenario (scenario_beyond (Some "tiny") [] (-5))
  = validateCTFScenario
      (scenario_with (filler 300) "CTF{x}" (sample_hints 7)
         [sample_solution] exact_match None).
Proof.
  apply validateCTFScenario_reads_four_things; reflexivity.
Defined.

(** X2.  An error list never says the same thing twice, and is never
    longer than the number of checks: four messages at most from
    [validateCTFScenario], five at most from [validateCTFScenarioData]. *)
Theorem error_lists_are_short_and_without_repeats :
  (forall scenario : CTFScenario,
      List.length (errors (validateCTFScenario scenario)) <= 4
      /\ NoDup (errors (validateCTFScenario scenario)))
  /\ (forall data : Data.Scenario,
      List.length (errors (validateCTFScenarioData data)) <= 5
      /\ NoDup (errors (validateCTFScenarioData data))).
Proof.
  split.
  - intros scenario. split; [| apply in_check_order_NoDup, ordered_full].
    rewrite validateCTFScenario_collected, length_collect. cbn [failing Nat.b2n].
    pose proof (b2n_le_1 (failing scenario OnDescription)).
    pose proof (b2n_le_1 (failing scenario OnFlag)).
    pose proof (b2n_le_1 (failing scenario OnHints)).
    pose proof (b2n_le_1 (failing scenario OnSolutions)).
    cbn [failing] in *. lia.
  - intros data. split; [| apply in_check_order_NoDup, ordered_data].
    rewrite validateCTFScenarioData_collected, length_collect.
    pose proof (b2n_le_1 (failing_data data OnDescription)).
    pose proof (b2n_le_1 (failing_data data OnFlag)).
    pose proof (b2n_le_1 (failing_data data OnHints)).
    pose proof (b2n_le_1 (failing_data data OnSolutions)).
    pose proof (b2n_le_1 (failing_data data OnLearningObjectives)).
    lia.
Qed.

(** X3.  The validators written in the Mongoose sub-schemas and the two
    validation helpers draw the same line: the hints validator accepts a
    list exactly when neither helper has a hints message for it, and so
    for the solutions validator and, in [validateCTFScenarioData], for the
    learning-objectives validator. *)
Theorem schema_validators_agree_with_the_helpers :
  (forall scenario : CTFScenario,
      (hints_validator (hints (game_content scenario)) = true
       <-> reported OnHints (errors (validateCTFScenario scenario)) = 0)
      /\ (solutions_validator (solutions (game_content scenario)) = true
          <-> reported OnSolutions (errors (validateCTFScenario scenario)) = 0))
  /\ (forall (data : Data.Scenario) (hs : list CTFHint),
      optchain (Data.game_content data) Data.hints = Some hs ->
      (hints_validator hs = true
       <-> reported OnHints (errors (validateCTFScenarioData data)) = 0))
  /\ (forall (data : Data.Scenario) (sols : list CTFSolution),
      optchain (Data.game_content data) Data.solutions = Some sols ->
      (solutions_validator sols = true
       <-> reported OnSolutions (errors (validateCTFScenarioData data)) = 0))
  /\ (forall (data : Data.Scenario) (objs : list string),
      optchain (Data.basic_info data) Data.learning_objectives = Some objs ->
      (learning_objectives_validator objs = true
       <-> reported OnLearningObjectives
             (errors (validateCTFScenarioData data)) = 0)).
Proof.
  split; [| split; [| split]].
  - intros scenario. rewrite !reported_full. cbn [failing].
    unfold hints_validator, solutions_validator, within.
    split.
    + destruct ((3 <=? _) && (_ <=? 7))%nat; simpl; split; congruence.
    + destruct (1 <=? _)%nat; simpl; split; congruence.
  - intros data hs H. rewrite reported_data. cbn [failing_data]. rewrite H.
    cbn [failing_if_present]. unfold hints_validator, within.
    destruct ((3 <=? _) && (_ <=? 7))%nat; simpl; split; congruence.
  - intros data sols H. rewrite reported_data. cbn [failing_data]. rewrite H.
    cbn [failing_if_present]. unfold solutions_validator.
    destruct (1 <=? _)%nat; simpl; split; congruence.
  - intros data objs H. rewrite reported_data. cbn [failing_data]. rewrite H.
    cbn [failing_if_present]. unfold learning_objectives_validator.
    destruct (1 <=? _)%nat; simpl; split; congruence.
Qed.

Lemma schema_validators_agree_with_the_helpers_witness :
  (hints_validator (sample_hints 2) = true
   <-> reported OnHints
         (errors (validateCTFScenarioData
                    (data_with None None (Some (sample_hints 2)) None None))) = 0)
  /\ (learning_objectives_validator [] = true
      <-> reported OnLearningObjectives
            (errors (validateCTFScenarioData
                       (data_with None None None None (Some [])))) = 0).
Proof.
  destruct schema_validators_agree_with_the_helpers as (_ & H2 & _ & H4).
  split.
  - apply (H2 (data_with None None (Some (sample_hints 2)) None None)).
    reflexivity.
  - apply (H4 (data_with None None None None (Some []))). reflexivity.
Defined.

Lemma failing_to_data (scenario : CTFScenario) (k : Check) :
  failing_data (to_data scenario) k
  = match k with
    | OnDescription =>
        truthy_string (description (game_content scenario))
        && failing scenario OnDescription
    | OnFlag =>
        truthy_string (flag (game_content scenario))
        && failing scenario OnFlag
    | OnHints => failing scenario OnHints
    | OnSolutions => failing scenario OnSolutions
    | OnLearningObjectives =>
        negb (1 <=? List.length (learning_objectives (basic_info scenario)))%nat
    end.
Proof.
  destruct k; cbn [failing_data failing to_data optchain Data.game_content
    Data.basic_info Data.description Data.flag Data.hints Data.solutions
    Data.learning_objectives failing_if_present]; try reflexivity.
  - destruct (description (game_content scenario)); reflexivity.
  - destruct (flag (game_content scenario)); reflexivity.
Qed.

Lemma within_nonempty lo hi (s : string) :
  (1 <= lo)%nat -> within lo hi (String.length s) = true -> truthy_string s = true.
Proof.
  unfold within. destruct s; simpl; [| reflexivity].
  intros Hlo H. apply andb_prop in H as [H _]. apply Nat.leb_le in H. lia.
Qed.

(** X4.  The two helpers compared on one and the same scenario.
    [validateCTFScenario] never has a word on learning objectives.  A
    scenario it accepts is accepted by [validateCTFScenarioData] exactly
    when it has a learning objective; and a scenario
    [validateCTFScenarioData] accepts is accepted by [validateCTFScenario]
    provided its description and its flag are not empty. *)
Theorem helpers_compared_on_one_scenario :
  (forall scenario : CTFScenario,
      reported OnLearningObjectives (errors (validateCTFScenario scenario)) = 0)
  /\ (forall scenario : CTFScenario,
      valid (validateCTFScenario scenario) = true ->
      (valid (validateCTFScenarioData (to_data scenario)) = true
       <-> learning_objectives (basic_info scenario) <> []))
  /\ (forall scenario : CTFScenario,
      valid (validateCTFScenarioData (to_data scenario)) = true ->
      description (game_content scenario) <> "" ->
      flag (game_content scenario) <> "" ->
      valid (validateCTFScenario scenario) = true).
Proof.
  split; [| split].
  - intros scenario. now rewrite reported_full.
  - intros scenario Hfull. rewrite valid_full_iff in Hfull.
    rewrite valid_data_iff. split.
    + intros H E. specialize (H OnLearningObjectives).
      rewrite failing_to_data, E in H. discriminate.
    + intros Hne k. rewrite failing_to_data.
      destruct k; rewrite ?Hfull, ?andb_false_r; try reflexivity.
      destruct (learning_objectives (basic_info scenario)); [congruence | reflexivity].
  - intros scenario Hdata Hd Hf. rewrite valid_data_iff in Hdata.
    rewrite valid_full_iff. intros k.
    pose proof (Hdata k) as H. rewrite failing_to_data in H.
    destruct k; try assumption; try reflexivity.
    + destruct (description (game_content scenario)); [congruence | exact H].
    + destruct (flag (game_content scenario)); [congruence | exact H].
Qed.

Lemma helpers_compared_on_one_scenario_witness :
  (valid (validateCTFScenarioData (to_data (scenario_beyond None [] 100))) = true
   <-> learning_objectives (basic_info (scenario_beyond None [] 100)) <> [])
  /\ valid (validateCTFScenario scenario_inside_bounds) = true.
Proof.
  destruct helpers_compared_on_one_scenario as (_ & H2 & H3).
  split.
  - apply H2. vm_compute. reflexivity.
  - apply H3; [vm_compute; reflexivity | discriminate | discriminate].
Defined.

(** X5.  An empty string is passed over by [validateCTFScenarioData] as if
    it were not there: an empty description draws no description message
    and an empty flag no flag message, while [validateCTFScenario] has one
    message for each. *)
Theorem empty_text_is_passed_over_by_the_partial_helper :
  (forall data : Data.Scenario,
      optchain (Data.game_content data) Data.description = Some "" ->
      reported OnDescription (errors (validateCTFScenarioData data)) = 0)
  /\ (forall data : Data.Scenario,
      optchain (Data.game_content data) Data.flag = Some "" ->
      reported OnFlag (errors (validateCTFScenarioData data)) = 0)
  /\ (forall scenario : CTFScenario,
      description (game_content scenario) = "" ->
      reported OnDescription (errors (validateCTFScenario scenario)) = 1)
  /\ (forall scenario : CTFScenario,
      flag (game_content scenario) = "" ->
      reported OnFlag (errors (validateCTFScenario scenario)) = 1).
Proof.
  split; [| split; [| split]].
  - intros data H. rewrite reported_data. cbn [failing_data]. now rewrite H.
  - intros data H. rewrite reported_data. cbn [failing_data]. now rewrite H.
  - intros scenario H. rewrite reported_full. cbn [failing]. now rewrite H.
  - intros scenario H. rewrite reported_full. cbn [failing]. now rewrite H.
Qed.

Lemma empty_text_is_passed_over_by_the_partial_helper_witness :
  reported OnDescription
    (errors (validateCTFScenarioData
               (data_with (Some "") (Some "") None None None))) = 0
  /\ reported OnFlag
       (errors (validateCTFScenarioData
                  (data_with (Some "") (Some "") None None None))) = 0
  /\ reported OnDescription
       (errors (validateCTFScenario
                  (scenario_with "" "" [] [] exact_match None))) = 1
  /\ reported OnFlag
       (errors (validateCTFScenario
                  (scenario_with "" "" [] [] exact_match None))) = 1.
Proof.
  destruct empty_text_is_passed_over_by_the_partial_helper
    as (H1 & H2 & H3 & H4).
  exact (conj (H1 (data_with (Some "") (Some "") None None None) eq_refl)
        (conj (H2 (data_with (Some "") (Some "") None None None) eq_refl)
        (conj (H3 (scenario_with "" "" [] [] exact_match None) eq_refl)
              (H4 (scenario_with "" "" [] [] exact_match None) eq_refl)))).
Defined.

Lemma last_char_append_char (s : string) (c : ascii) :
  last_char (s ++ String c "") = Some c.
Proof.
  induction s as [|a s IH]; [reflexivity |].
  destruct s as [|b s]; [reflexivity | exact IH].
Qed.

Lemma closing_braces_append (s1 s2 : string) :
  closing_braces (s1 ++ s2) = closing_braces s1 + closing_braces s2.
Proof.
  induction s1 as [|c s1 IH]; simpl; [reflexivity | rewrite IH; lia].
Qed.

Lemma brace_free_no_closing_brace (m : string) :
  brace_free m -> closing_braces m = 0.
Proof.
  unfold brace_free. induction m as [|c m IH]; simpl; intros H; [reflexivity |].
  destruct (Ascii.eqb_spec c "}") as [->|_].
  - exfalso. apply (H "}"%char); auto.
  - simpl. apply IH. intros a Ha. apply H. now right.
Qed.

(** X6.  What a flag the pattern accepts looks like from outside: it has
    at least 6 characters, begins with [CTF{], ends with a closing brace,
    and that closing brace is the only one in it.  So a flag followed by a
    space or a line break, or holding a closing brace of its own, is
    turned down. *)
Theorem accepted_flags_are_closed_once :
  forall s : string,
    RegExp.test (pattern (c_flag CTF_CONSTRAINTS)) s = true ->
    6 <= String.length s
    /\ String.prefix "CTF{" s = true
    /\ last_char s = Some "}"%char
    /\ closing_braces s = 1.
Proof.
  intros s H. apply flag_pattern_shape in H as (m & -> & Hne & Hfree).
  pose proof (last_char_append_char m "}") as L.
  pose proof (brace_free_no_closing_brace m Hfree) as B.
  destruct m as [|a m]; [congruence |].
  split; [| split; [reflexivity | split]].
  - simpl. rewrite length_append. simpl. lia.
  - exact L.
  - change (closing_braces (String a m ++ "}") = 1).
    rewrite closing_braces_append, B. reflexivity.
Qed.

Lemma accepted_flags_are_closed_once_witness :
  6 <= String.length "CTF{packet_master}"
  /\ String.prefix "CTF{" "CTF{packet_master}" = true
  /\ last_char "CTF{packet_master}" = Some "}"%char
  /\ closing_braces "CTF{packet_master}" = 1.
Proof.
  apply accepted_flags_are_closed_once. reflexivity.
Defined.

Lemma within_spec lo hi n : within lo hi n = true <-> lo <= n <= hi.
Proof.
  unfold within. rewrite andb_true_iff, !Nat.leb_le. reflexivity.
Qed.

(** X20.  What [validateCTFScenario] accepts: it answers valid exactly for
    a scenario whose description has 300 to 600 characters, whose flag is
    [CTF{], one or more characters other than a closing brace, [}], which
    has 3 to 7 hints and at least one solution. *)
Theorem validateCTFScenario_accepts_the_well_formed :
  forall scenario : CTFScenario,
    valid (validateCTFScenario scenario) = true
    <-> (300 <= String.length (description (game_content scenario)) <= 600
         /\ flag_shape (flag (game_content scenario))
         /\ 3 <= List.length (hints (game_content scenario)) <= 7
         /\ 1 <= List.length (solutions (game_content scenario))).
Proof.
  intros scenario. rewrite valid_full_iff. split.
  - intros H.
    pose proof (H OnDescription) as H1. pose proof (H OnFlag) as H2.
    pose proof (H OnHints) as H3. pose proof (H OnSolutions) as H4.
    cbn [failing] in H1, H2, H3, H4.
    apply negb_false_iff in H1, H2, H3, H4.
    apply within_spec in H1. apply within_spec in H3.
    apply flag_pattern_shape in H2. apply Nat.leb_le in H4. auto.
  - intros (H1 & H2 & H3 & H4) k.
    apply within_spec in H1. apply within_spec in H3.
    apply flag_pattern_shape in H2. apply Nat.leb_le in H4.
    destruct k; cbn [failing]; rewrite ?H1, ?H2, ?H3, ?H4; reflexivity.
Qed.

Lemma failing_data_part_of (mine theirs : Data.Scenario) (k : Check) :
  part_of mine theirs ->
  failing_data theirs k = false -> failing_data mine k = false.
Proof.
  intros (P1 & P2 & P3 & P4 & P5).
  destruct k; cbn [failing_data];
    [destruct P1 as [E|E] | destruct P2 as [E|E] | destruct P3 as [E|E]
     | destruct P4 as [E|E] | destruct P5 as [E|E]];
    rewrite E; auto.
Qed.

(** X21.  A part of what [validateCTFScenarioData] accepts is accepted:
    taking paths away from data that is valid leaves data that is valid,
    and never adds a message on any check. *)
Theorem a_part_of_valid_data_is_valid :
  forall mine theirs : Data.Scenario,
    part_of mine theirs ->
    (valid (validateCTFScenarioData theirs) = true ->
     valid (validateCTFScenarioData mine) = true)
    /\ (forall k : Check,
        reported k (errors (validateCTFScenarioData mine))
        <= reported k (errors (validateCTFScenarioData theirs))).
Proof.
  intros mine theirs Hpart. split.
  - rewrite !valid_data_iff. intros H k.
    apply (failing_data_part_of mine theirs k Hpart), H.
  - intros k. rewrite !reported_data.
    destruct (failing_data theirs k) eqn:E.
    + destruct (failing_data mine k); lia.
    + now rewrite (failing_data_part_of mine theirs k Hpart E).
Qed.

Lemma a_part_of_valid_data_is_valid_witness :
  valid (validateCTFScenarioData
           (data_with None (Some "CTF{x}") None (Some [sample_solution]) None))
  = true.
Proof.
  refine (proj1 (a_part_of_valid_data_is_valid
            (data_with None (Some "CTF{x}") None (Some [sample_solution]) None)
            (data_with (Some (filler 300)) (Some "CTF{x}")
               (Some (sample_hints 3)) (Some [sample_solution])
               (Some ["Analyze packets"])) _) _).
  - unfold part_of, path_part_of. cbn. auto 10.
  - vm_compute. reflexivity.
Defined.

End MoreValidation.

(* ===================================================================== *)
(** ** The [toJSON] transform and [fullTitle] *)
(* ===================================================================== *)

Section Views.
Import JS CtfSchema CtfModel CtfModelRest Described Further.

Lemma own_delete {V : Type} (key gone : string) (o : list (string * V)) :
  own key (delete gone o) = if String.eqb key gone then None else own key o.
Proof.
  unfold own, delete. induction o as [|[k v] o IH]; cbn.
  - now destruct (String.eqb key gone).
  - destruct (String.eqb_spec k gone) as [->|Hk]; cbn.
    + rewrite IH. destruct (String.eqb_spec key gone) as [->|Hn];
        [reflexivity |].
      destruct (String.eqb_spec gone key); [congruence | reflexivity].
    + destruct (String.eqb_spec k key) as [->|Hn].
      * destruct (String.eqb_spec key gone); [congruence | reflexivity].
      * exact IH.
Qed.

Lemma delete_delete {V : Type} (k1 k2 : string) (o : list (string * V)) :
  delete k1 (delete k2 o) = delete k2 (delete k1 o).
Proof.
  unfold delete. induction o as [|[k v] o IH]; cbn; [reflexivity |].
  destruct (String.eqb k k2) eqn:E2, (String.eqb k k1) eqn:E1; cbn;
    rewrite ?E1, ?E2; cbn; now rewrite IH.
Qed.

Lemma delete_again {V : Type} (k : string) (o : list (string * V)) :
  delete k (delete k o) = delete k o.
Proof.
  unfold delete. induction o as [|[k' v] o IH]; cbn; [reflexivity |].
  destruct (String.eqb k' k) eqn:E; cbn; rewrite ?E; cbn; now rewrite IH.
Qed.

(** X17.  The [toJSON] transform takes [_id] and [__v] out of the object
    and nothing else: neither key is in the result, every other key, the
    [scenario_id] and the virtuals among them, has the value it had, and
    transforming once more changes nothing. *)
Theorem toJSON_drops_the_two_internal_keys :
  forall (V : Type) (ret : list (string * V)),
    (forall key : string,
        own key (toJSON_transform ret)
        = if String.eqb key "_id" || String.eqb key "__v"
          then None else own key ret)
    /\ toJSON_transform (toJSON_transform ret) = toJSON_transform ret
    /\ List.length (toJSON_transform ret) <= List.length ret.
Proof.
  intros V ret. unfold toJSON_transform. cbv zeta. split; [| split].
  - intros key. rewrite !own_delete.
    destruct (String.eqb key "__v"), (String.eqb key "_id"); reflexivity.
  - rewrite (delete_delete "_id" "__v" (delete "_id" ret)).
    now rewrite !delete_again.
  - unfold delete.
    etransitivity; [apply filter_length_le |]. apply filter_length_le.
Qed.

Lemma backwards_append (a b : string) :
  backwards (a ++ b) = backwards b ++ backwards a.
Proof.
  induction a as [|c a IH]; simpl.
  - now rewrite append_nil_r.
  - now rewrite IH, append_assoc.
Qed.

Lemma backwards_backwards (s : string) : backwards (backwards s) = s.
Proof.
  induction s as [|c s IH]; simpl; [reflexivity |].
  rewrite backwards_append, IH. reflexivity.
Qed.

Lemma backwards_inj (a b : string) : backwards a = backwards b -> a = b.
Proof.
  intros H. rewrite <- (backwards_backwards a), <- (backwards_backwards b).
  now rewrite H.
Qed.

Lemma append_inv_head (s a b : string) : s ++ a = s ++ b -> a = b.
Proof.
  induction s as [|c s IH]; simpl; intros H; [exact H |].
  injection H as H. auto.
Qed.

Lemma title_and_difficulty_of_a_full_title (t1 t2 : string)
      (d1 d2 : DifficultyLevel) :
  t1 ++ " (" ++ difficulty_name d1 ++ ")"
  = t2 ++ " (" ++ difficulty_name d2 ++ ")" ->
  t1 = t2 /\ d1 = d2.
Proof.
  intros H. apply (f_equal backwards) in H.
  rewrite (backwards_append t1), (backwards_append t2) in H.
  destruct d1, d2;
    first [ simpl in H; discriminate
          | split; [| reflexivity];
            apply backwards_inj; eapply append_inv_head; exact H ].
Qed.

(** X18.  [fullTitle] is there exactly when the document has basic
    information, and it tells title and difficulty apart: two documents
    with the same full title have the same title and the same
    difficulty. *)
Theorem fullTitle_tells_title_and_difficulty :
  (forall d : Doc.CTFScenarioDocument,
      fullTitle d = None <-> Doc.basic_info d = None)
  /\ (forall (d1 d2 : Doc.CTFScenarioDocument) (i1 i2 : BasicInfo),
      Doc.basic_info d1 = Some i1 ->
      Doc.basic_info d2 = Some i2 ->
      fullTitle d1 = fullTitle d2 ->
      title i1 = title i2 /\ difficulty i1 = difficulty i2).
Proof.
  split.
  - intros d. unfold fullTitle.
    destruct (Doc.basic_info d); split; congruence.
  - intros d1 d2 i1 i2 H1 H2. unfold fullTitle. rewrite H1, H2.
    intros H. injection H as H.
    now apply title_and_difficulty_of_a_full_title.
Qed.

Lemma fullTitle_tells_title_and_difficulty_witness :
  title sample_basic_info = title sample_basic_info
  /\ difficulty sample_basic_info = difficulty sample_basic_info.
Proof.
  apply (proj2 fullTitle_tells_title_and_difficulty
           (sample_document draft false) (sample_document archived true)
           sample_basic_info sample_basic_info);
    reflexivity.
Defined.

End Views.


(* ===================================================================== *)
(** ** The type guard *)
(* ===================================================================== *)

Section TypeGuard.
Import CtfSchemaRest.

(** X19.  [isCTFScenario] never throws.  What it returns is truthy exactly
    when the argument is an object whose [scenario_type] is the string
    ctf; on an argument that is falsy (undefined, null, false, 0, NaN, the
    empty string) it returns that argument itself, and a boolean on any
    other. *)
Theorem isCTFScenario_answers_on_every_value :
  forall scenario : Any,
    exists r : Any,
      isCTFScenario scenario = Some r
      /\ (truthy r = true
          <-> exists get : string -> Any,
                scenario = JObject get /\ get "scenario_type" = JString "ctf")
      /\ (truthy scenario = false -> r = scenario)
      /\ (truthy scenario = true -> exists b : bool, r = JBoolean b).
Proof.
  intros scenario. unfold isCTFScenario.
  destruct scenario as [| |b| |n|s|get]; cbn [truthy member].
  - exists JUndefined. split; [reflexivity |]. split; [| split; [auto | discriminate]].
    split; [discriminate | intros (g & E & _); discriminate].
  - exists JNull. split; [reflexivity |]. split; [| split; [auto | discriminate]].
    split; [discriminate | intros (g & E & _); discriminate].
  - destruct b; eexists; (split; [reflexivity |]);
      (split; [split; [discriminate | intros (g & E & _); discriminate] |]);
      split; intros H; try discriminate; eauto.
  - exists JNaN. split; [reflexivity |]. split; [| split; [auto | discriminate]].
    split; [discriminate | intros (g & E & _); discriminate].
  - destruct (n =? 0)%Z eqn:E; cbn [negb]; eexists; (split; [reflexivity |]);
      (split; [split; [cbn; rewrite ?E; discriminate
                      | intros (g & K & _); discriminate] |]);
      split; intros H; try discriminate; eauto.
  - destruct s as [|a s]; cbn [JS.truthy_string]; eexists;
      (split; [reflexivity |]);
      (split; [split; [discriminate | intros (g & K & _); discriminate] |]);
      split; intros H; try discriminate; eauto.
  - eexists. split; [reflexivity |]. split; [| split; [discriminate | eauto]].
    cbn [truthy]. unfold strictly_equals_string. split.
    + intros H. exists get. split; [reflexivity |].
      destruct (get "scenario_type"); try discriminate.
      apply String.eqb_eq in H. now subst.
    + intros (g & E & H). injection E as <-. rewrite H. reflexivity.
Qed.

Lemma isCTFScenario_answers_on_every_value_witness :
  exists r : Any,
    isCTFScenario (JNumber 0) = Some r /\ r = JNumber 0.
Proof.
  destruct (isCTFScenario_answers_on_every_value (JNumber 0))
    as (r & Hr & _ & Hfalsy & _).
  exists r. split; [exact Hr | apply Hfalsy; reflexivity].
Defined.

End TypeGuard.

(* ===================================================================== *)
(** ** Saving and the lifecycle methods *)
(* ===================================================================== *)

Section Lifecycle.
Import JS CtfSchema CtfModel CtfModelRest CtfModelSaving Described Further.

Lemma Number_add_one (v : Z) : countable v -> Number_add v 1 = (v + 1)%Z.
Proof.
  unfold countable, Number_add, to_Number. intros H.
  destruct (Z.ltb_spec (Z.abs (v + 1)) (2 ^ 53)) as [_|Hbig]; [reflexivity |].
  assert (E : (v + 1 = 2 ^ 53)%Z) by lia. rewrite E. reflexivity.
Qed.

Lemma Number_add_one_positive (v : Z) : (1 <= v)%Z -> (1 <= Number_add v 1)%Z.
Proof.
  unfold Number_add, to_Number. intros Hv.
  destruct (Z.ltb_spec (Z.abs (v + 1)) (2 ^ 53)) as [_|Hbig]; [lia |].
  rewrite Z.abs_eq in * by lia. rewrite Z.sgn_pos by lia.
  set (a := (v + 1)%Z) in *.
  set (q := (2 ^ (Z.log2 a - 52))%Z).
  assert (Ha : (0 < a)%Z) by lia.
  pose proof (Z.log2_spec a Ha) as [Hlo _].
  assert (H53 : (53 <= Z.log2 a)%Z).
  { apply Z.log2_le_pow2; lia. }
  assert (Hq : (0 < q)%Z) by (apply Z.pow_pos_nonneg; lia).
  assert (Hqa : (q <= a)%Z).
  { etransitivity; [| exact Hlo]. apply Z.pow_le_mono_r; lia. }
  assert (Hdiv : (1 <= a / q)%Z).
  { apply Z.div_le_lower_bound; lia. }
  assert (Hlow : (1 <= a / q * q)%Z) by nia.
  destruct ((q / 2 <? a - a / q * q)%Z
            || ((a - a / q * q =? q / 2)%Z && Z.odd (a / q))); lia.
Qed.

Lemma writes_taken_next n w :
  writes_taken (S n) w ->
  hd None (writes w) = None /\ writes_taken n (after_saving w).
Proof.
  unfold writes_taken. intros H. split.
  - specialize (H 0 ltac:(lia)). destruct (writes w); [reflexivity | exact H].
  - intros i Hi. specialize (H (S i) ltac:(lia)).
    unfold after_saving. cbn. destruct (writes w) as [|a l]; cbn.
    + now destruct i.
    + exact H.
Qed.

(** [save] on a document the schema turns down. *)
Lemma save_invalid this w :
  CTFScenarioSchema_accepts this = false ->
  runState (save this) w = (Rejected "ValidationError", w).
Proof. intros H. unfold save. now rewrite H. Qed.

(** [save] on a document the store refuses. *)
Lemma save_refused this w reason :
  CTFScenarioSchema_accepts this = true ->
  hd None (writes w) = Some reason ->
  runState (save this) w = (Rejected reason, after_saving w).
Proof.
  intros H Hw. unfold save. rewrite H. unfold after_saving.
  destruct w as [c adv o wr]. cbn in *. now rewrite Hw.
Qed.

(** [save] on a document that is accepted and written, path by path. *)
Lemma save_run this w :
  CTFScenarioSchema_accepts this = true ->
  hd None (writes w) = None ->
  exists this' : Doc.CTFScenarioDocument,
    runState (save this) w = (Fulfilled this', after_saving w)
    /\ Doc.metadata this'
       = {| created_at := created_at (Doc.metadata this);
            updated_at := time_read w;
            created_by := created_by (Doc.metadata this);
            version := (if Doc.isNew this then version (Doc.metadata this)
                        else Number_add (version (Doc.metadata this)) 1);
            status := status (Doc.metadata this);
            llm_generated := llm_generated (Doc.metadata this) |}
    /\ Doc.isNew this' = false
    /\ Doc.scenario_id this' = Doc.scenario_id this
    /\ Doc.scenario_type this' = Doc.scenario_type this
    /\ Doc.basic_info this' = Doc.basic_info this
    /\ Doc.game_content this' = Doc.game_content this
    /\ Doc.llm_config this' = Doc.llm_config this
    /\ Doc.custom_instructions this' = Doc.custom_instructions this
    /\ Doc.gamification_config this' = Doc.gamification_config this.
Proof.
  intros H Hw. unfold save. rewrite H. unfold after_saving, time_read.
  destruct w as [c adv o wr]. destruct this as [id ty bi gc lc ci gcfg m new].
  cbn in Hw. destruct new; cbn; rewrite Hw; cbn;
    (eexists; split; [reflexivity |]); cbn; repeat split.
Qed.

Lemma accepts_metadata this this' :
  Doc.scenario_id this' = Doc.scenario_id this ->
  Doc.basic_info this' = Doc.basic_info this ->
  Doc.game_content this' = Doc.game_content this ->
  Doc.llm_config this' = Doc.llm_config this ->
  Doc.custom_instructions this' = Doc.custom_instructions this ->
  Doc.gamification_config this' = Doc.gamification_config this ->
  MetadataSchema_accepts (Doc.metadata this') = MetadataSchema_accepts (Doc.metadata this) ->
  CTFScenarioSchema_accepts this' = CTFScenarioSchema_accepts this.
Proof.
  intros H1 H2 H3 H4 H5 H6 H7. unfold CTFScenarioSchema_accepts.
  now rewrite H1, H2, H3, H4, H5, H6, H7.
Qed.

(** A call that is accepted and written, path by path; the document it
    returns is accepted in its turn. *)
Lemma call_run (op : Operation) (this : Doc.CTFScenarioDocument) (w : World) :
  CTFScenarioSchema_accepts this = true ->
  hd None (writes w) = None ->
  exists this' : Doc.CTFScenarioDocument,
    runState (call op this) w = (Fulfilled this', after_saving w)
    /\ Doc.metadata this'
       = {| created_at := created_at (Doc.metadata this);
            updated_at := time_read w;
            created_by := created_by (Doc.metadata this);
            version := (if Doc.isNew this then version (Doc.metadata this)
                        else Number_add (version (Doc.metadata this)) 1);
            status := status_after op (status (Doc.metadata this));
            llm_generated := llm_generated (Doc.metadata this) |}
    /\ Doc.isNew this' = false
    /\ Doc.scenario_id this' = Doc.scenario_id this
    /\ Doc.scenario_type this' = Doc.scenario_type this
    /\ (Doc.basic_info this' = Doc.basic_info this
        /\ Doc.game_content this' = Doc.game_content this
        /\ Doc.llm_config this' = Doc.llm_config this
        /\ Doc.custom_instructions this' = Doc.custom_instructions this
        /\ Doc.gamification_config this' = Doc.gamification_config this)
    /\ CTFScenarioSchema_accepts this' = true.
Proof.
  intros H Hw.
  assert (K : exists this' : Doc.CTFScenarioDocument,
    runState (call op this) w = (Fulfilled this', after_saving w)
    /\ Doc.metadata this'
       = {| created_at := created_at (Doc.metadata this);
            updated_at := time_read w;
            created_by := created_by (Doc.metadata this);
            version := (if Doc.isNew this then version (Doc.metadata this)
                        else Number_add (version (Doc.metadata this)) 1);
            status := status_after op (status (Doc.metadata this));
            llm_generated := llm_generated (Doc.metadata this) |}
    /\ Doc.isNew this' = false
    /\ Doc.scenario_id this' = Doc.scenario_id this
    /\ Doc.scenario_type this' = Doc.scenario_type this
    /\ Doc.basic_info this' = Doc.basic_info this
    /\ Doc.game_content this' = Doc.game_content this
    /\ Doc.llm_config this' = Doc.llm_config this
    /\ Doc.custom_instructions this' = Doc.custom_instructions this
    /\ Doc.gamification_config this' = Doc.gamification_config this).
  { destruct op; cbn [call status_after];
      [ exact (save_run this w H Hw)
      | exact (save_run (in_status this published) w H Hw)
      | exact (save_run (in_status this archived) w H Hw)
      | exact (save_run (in_status this draft) w H Hw) ]. }
  destruct K as (d & Hrun & Hmd & Hnew & Hid & Hty & Hbi & Hgc & Hlc & Hci & Hgcfg).
  exists d. repeat (split; [assumption |]). split; [auto 10 |].
  rewrite <- H. apply accepts_metadata; try assumption.
  rewrite Hmd. unfold MetadataSchema_accepts. cbn [created_by version].
  f_equal.
  assert (V : number_min 1 (version (Doc.metadata this)) = true).
  { unfold CTFScenarioSchema_accepts, MetadataSchema_accepts in H.
    apply andb_prop in H as [_ Hm]. now apply andb_prop in Hm as [_ Hm]. }
  rewrite V. destruct (Doc.isNew this); [exact V |].
  unfold number_min in *. apply Z.leb_le in V. apply Z.leb_le.
  now apply Number_add_one_positive.
Qed.

Lemma accepted_version this :
  CTFScenarioSchema_accepts this = true -> (1 <= version (Doc.metadata this))%Z.
Proof.
  unfold CTFScenarioSchema_accepts, MetadataSchema_accepts. intros H.
  apply andb_prop in H as [_ Hm]. apply andb_prop in Hm as [_ Hm].
  now apply Z.leb_le in Hm.
Qed.

Lemma call_all_cons op ops this w this' :
  runState (call op this) w = (Fulfilled this', after_saving w) ->
  runState (call_all (op :: ops) this) w
  = runState (call_all ops this') (after_saving w).
Proof.
  intros H. cbn [call_all]. cbn [bind Monad_state runState]. now rewrite H.
Qed.

(** A run of calls that are all accepted and written, on every path of the
    document and on the world. *)
Lemma call_all_run (ops : list Operation) :
  forall (this : Doc.CTFScenarioDocument) (w : World),
    CTFScenarioSchema_accepts this = true ->
    writes_taken (List.length ops) w ->
    exists (this' : Doc.CTFScenarioDocument) (w' : World),
      runState (call_all ops this) w = (Fulfilled this', w')
      /\ CTFScenarioSchema_accepts this' = true
      /\ status (Doc.metadata this')
         = status_after_all ops (status (Doc.metadata this))
      /\ (Doc.basic_info this' = Doc.basic_info this
          /\ Doc.game_content this' = Doc.game_content this
          /\ Doc.llm_config this' = Doc.llm_config this
          /\ Doc.custom_instructions this' = Doc.custom_instructions this
          /\ Doc.gamification_config this' = Doc.gamification_config this
          /\ created_by (Doc.metadata this') = created_by (Doc.metadata this)
          /\ llm_generated (Doc.metadata this') = llm_generated (Doc.metadata this))
      /\ (created_at (Doc.metadata this') = created_at (Doc.metadata this)
          /\ Doc.scenario_id this' = Doc.scenario_id this
          /\ Doc.scenario_type this' = Doc.scenario_type this)
      /\ (ops <> [] ->
          updated_at (Doc.metadata this') = clock w' /\ Doc.isNew this' = false)
      /\ oids w' = oids w
      /\ ((version (Doc.metadata this) + Z.of_nat (List.length ops) <= 2 ^ 53)%Z ->
          (version (Doc.metadata this) <= version (Doc.metadata this'))%Z
          /\ (Doc.isNew this = false ->
              version (Doc.metadata this')
              = (version (Doc.metadata this) + Z.of_nat (List.length ops))%Z)).
Proof.
  induction ops as [|op ops IH]; intros this w Hacc Hw.
  - exists this, w. cbn. repeat split; try congruence; lia.
  - cbn [List.length] in Hw. apply writes_taken_next in Hw as [Hw0 Hw].
    destruct (call_run op this w Hacc Hw0)
      as (d & Hrun & Hmd & Hnew & Hid & Hty
          & (Hbi & Hgc & Hlc & Hci & Hgcfg) & Hacc').
    destruct (IH d (after_saving w) Hacc' Hw)
      as (d' & w' & Hrun' & Hacc'' & Hst
          & (Kbi & Kgc & Klc & Kci & Kgcfg & Kby & Kllm)
          & (Kcre & Kid & Kty) & Hne & Hoid & Hver).
    pose proof (accepted_version this Hacc) as Hv.
    exists d', w'.
    split; [rewrite (call_all_cons _ _ _ _ _ Hrun); exact Hrun' |].
    split; [exact Hacc'' |].
    split; [rewrite Hst, Hmd; reflexivity |].
    split; [rewrite Kbi, Kgc, Klc, Kci, Kgcfg, Kby, Kllm, Hmd; cbn; auto 10 |].
    split; [rewrite Kcre, Kid, Kty, Hmd; cbn; auto |].
    split.
    { intros _. destruct ops as [|op' ops'].
      - cbn in Hrun'. injection Hrun' as <- <-. rewrite Hmd. cbn. auto.
      - apply Hne. discriminate. }
    split; [rewrite Hoid; reflexivity |].
    intros Hbound. cbn [List.length] in Hbound.
    assert (Hd : version (Doc.metadata d)
                 = (if Doc.isNew this then version (Doc.metadata this)
                    else version (Doc.metadata this) + 1)%Z).
    { rewrite Hmd. cbn. destruct (Doc.isNew this); [reflexivity |].
      apply Number_add_one. unfold countable. lia. }
    destruct Hver as [Hle Hex].
    { rewrite Hd. destruct (Doc.isNew this); lia. }
    specialize (Hex Hnew). rewrite Hd in Hle, Hex. cbn [List.length].
    split.
    + destruct (Doc.isNew this); lia.
    + intros E. rewrite E in Hex. lia.
Qed.

Lemma hex_value_digit (d : N) : (d < 16)%N -> hex_value (hex_digit d) = d.
Proof.
  intros H. rewrite <- (N2Nat.id d) at 2.
  assert (Hn : N.to_nat d < 16) by lia.
  unfold hex_digit. generalize dependent (N.to_nat d). intros n Hn.
  do 16 (destruct n as [|n]; [reflexivity |]). lia.
Qed.

Lemma append_last_inj (s1 s2 : string) (c1 c2 : ascii) :
  s1 ++ String c1 "" = s2 ++ String c2 "" -> s1 = s2 /\ c1 = c2.
Proof.
  intros H. apply (f_equal backwards) in H.
  rewrite !backwards_append in H. cbn in H. injection H as Hc Hs.
  split; [now apply backwards_inj | exact Hc].
Qed.

Lemma hex_fixed_inj (width : nat) :
  forall a b : N,
    (a < 16 ^ N.of_nat width)%N -> (b < 16 ^ N.of_nat width)%N ->
    hex_fixed width a = hex_fixed width b -> a = b.
Proof.
  induction width as [|width IH]; intros a b Ha Hb H.
  - cbn in Ha, Hb. lia.
  - cbn [hex_fixed] in H. apply append_last_inj in H as [Hs Hc].
    rewrite Nat2N.inj_succ, N.pow_succ_r' in Ha, Hb.
    assert (Hq : (a / 16 = b / 16)%N).
    { apply IH; [apply N.Div0.div_lt_upper_bound; lia
                | apply N.Div0.div_lt_upper_bound; lia | exact Hs]. }
    assert (Hr : (a mod 16 = b mod 16)%N).
    { rewrite <- (hex_value_digit (a mod 16)), <- (hex_value_digit (b mod 16)).
      - now rewrite Hc.
      - apply N.mod_lt; lia.
      - apply N.mod_lt; lia. }
    rewrite (N.div_mod a 16), (N.div_mod b 16) by lia. now rewrite Hq, Hr.
Qed.

Lemma ObjectId_toString_inj (o1 o2 : ObjectId) :
  twelve_bytes o1 -> twelve_bytes o2 ->
  ObjectId_toString o1 = ObjectId_toString o2 -> o1 = o2.
Proof. apply (hex_fixed_inj 24). Qed.

Lemma ObjectId_toString_not_empty (o : ObjectId) :
  required_string (ObjectId_toString o) = true.
Proof.
  unfold ObjectId_toString. cbn [hex_fixed].
  destruct (hex_fixed 23 (o / 16)); reflexivity.
Qed.

Lemma createCTFScenario_save scenarioData instructorId w :
  runState (createCTFScenario scenarioData instructorId) w
  = runState (save (built scenarioData instructorId w)) (at_the_save w).
Proof.
  unfold createCTFScenario, built, at_the_save, time_read, advance, coming_oid.
  destruct w as [c adv o wr].
  destruct adv as [|a1 [|a2 adv]]; destruct o as [|o1 o];
    destruct (Partial.llm_config scenarioData); reflexivity.
Qed.

Lemma time_read_at_the_save w :
  time_read (at_the_save w) = (time_read w + advance w 1 + advance w 2)%Z.
Proof.
  unfold at_the_save, time_read, advance. destruct w as [c adv o wr]. cbn.
  destruct adv as [|a1 [|a2 [|a3 adv]]]; cbn; lia.
Qed.

Lemma after_saving_at_the_save w : after_saving (at_the_save w) = after_creating w.
Proof.
  unfold after_saving, after_creating, at_the_save, time_read, advance.
  destruct w as [c adv o wr]. cbn.
  destruct adv as [|a1 [|a2 [|a3 adv]]]; cbn; f_equal; lia.
Qed.

(** [createCTFScenario] on an input that is accepted and written. *)
Lemma createCTFScenario_run (scenarioData : Partial.CTFScenario)
      (instructorId : string) (w : World) :
  CTFScenarioSchema_accepts (built scenarioData instructorId w) = true ->
  hd None (writes w) = None ->
  exists this' : Doc.CTFScenarioDocument,
    runState (createCTFScenario scenarioData instructorId) w
    = (Fulfilled this', after_creating w)
    /\ Doc.metadata this'
       = {| created_at := time_read w;
            updated_at := (time_read w + advance w 1 + advance w 2)%Z;
            created_by := instructorId;
            version := 1;
            status := draft;
            llm_generated := truthy_object (Partial.llm_config scenarioData) |}
    /\ Doc.isNew this' = false
    /\ Doc.scenario_id this'
       = match Partial.scenario_id scenarioData with
         | Some own => own
         | None => ObjectId_toString (coming_oid w 0)
         end
    /\ Doc.scenario_type this' = ctf
    /\ (Doc.basic_info this'
        = option_map BasicInfoSchema_set (Partial.basic_info scenarioData)
        /\ Doc.game_content this'
           = option_map GameContentSchema_set (Partial.game_content scenarioData)
        /\ Doc.llm_config this' = Partial.llm_config scenarioData
        /\ Doc.custom_instructions this'
           = option_map trim (Partial.custom_instructions scenarioData)
        /\ Doc.gamification_config this'
           = Partial.gamification_config scenarioData)
    /\ CTFScenarioSchema_accepts this' = true.
Proof.
  intros Hacc Hw.
  destruct (call_run Save (built scenarioData instructorId w) (at_the_save w)
              Hacc Hw)
    as (d & Hrun & Hmd & Hnew & Hid & Hty & Hcontent & Hacc').
  exists d. rewrite createCTFScenario_save.
  cbn [call] in Hrun. rewrite after_saving_at_the_save in Hrun.
  split; [exact Hrun |].
  rewrite time_read_at_the_save in Hmd.
  split; [exact Hmd |]. split; [exact Hnew |].
  split; [rewrite Hid; cbn; now destruct (Partial.scenario_id scenarioData) |].
  split; [rewrite Hty; cbn; now destruct (Partial.scenario_type scenarioData) as [[]|] |].
  split; [exact Hcontent | exact Hacc'].
Qed.

(** [createCTFScenario] on an input the schema turns down. *)
Lemma createCTFScenario_invalid scenarioData instructorId w :
  CTFScenarioSchema_accepts (built scenarioData instructorId w) = false ->
  runState (createCTFScenario scenarioData instructorId) w
  = (Rejected "ValidationError", at_the_save w).
Proof.
  intros H. rewrite createCTFScenario_save. now apply save_invalid.
Qed.

(** What makes the document built from an input acceptable, path by
    path. *)
Lemma accepts_built scenarioData instructorId w :
  CTFScenarioSchema_accepts (built scenarioData instructorId w)
  = required_string
      (spread_over (ObjectId_toString (coming_oid w 0))
         (Partial.scenario_id scenarioData))
    && required_doc (option_map BasicInfoSchema_set (Partial.basic_info scenarioData))
         BasicInfoSchema_accepts
    && required_doc (option_map GameContentSchema_set (Partial.game_content scenarioData))
         GameContentSchema_accepts
    && when_set (Partial.llm_config scenarioData) LLMConfigSchema_accepts
    && when_set (option_map trim (Partial.custom_instructions scenarioData))
         (maxlength 2000)
    && when_set (Partial.gamification_config scenarioData)
         GamificationConfigSchema_accepts
    && (required_string instructorId && true).
Proof. reflexivity. Qed.

Lemma call_as_save (op : Operation) (this : Doc.CTFScenarioDocument) :
  call op this
  = save (in_status this (status_after op (status (Doc.metadata this)))).
Proof.
  destruct this as [id ty bi gc lc ci gcfg [ca ua cb v st lg] new].
  destruct op; reflexivity.
Qed.

Lemma call_forgets_the_status (op : Operation) this s :
  op <> Save -> call op (in_status this s) = call op this.
Proof. destruct op; [congruence | reflexivity | reflexivity | reflexivity]. Qed.

(** A call is rejected for two reasons only: the schema turns the document
    down, or the store refuses the write. *)
Lemma call_rejected (op : Operation) this w reason :
  fst (runState (call op this) w) = Rejected reason ->
  (CTFScenarioSchema_accepts this = false /\ reason = "ValidationError")
  \/ (CTFScenarioSchema_accepts this = true /\ hd None (writes w) = Some reason).
Proof.
  rewrite call_as_save.
  set (that := in_status this (status_after op (status (Doc.metadata this)))).
  assert (Ha : CTFScenarioSchema_accepts that = CTFScenarioSchema_accepts this)
    by reflexivity.
  destruct (CTFScenarioSchema_accepts this) eqn:E.
  - destruct (hd None (writes w)) as [r|] eqn:Hw.
    + rewrite (save_refused that w r Ha Hw). cbn. intros H.
      injection H as ->. right. auto.
    + destruct (save_run that w Ha Hw) as (d & Hrun & _).
      rewrite Hrun. discriminate.
  - rewrite (save_invalid that w Ha). cbn. intros H.
    injection H as <-. left. auto.
Qed.

Lemma writes_taken_writes n w w' :
  writes w' = writes w -> writes_taken n w -> writes_taken n w'.
Proof. unfold writes_taken. intros E H i Hi. rewrite E. now apply H. Qed.

Lemma coming_oid_after_creating w :
  coming_oid (after_creating w) 0 = coming_oid w 1.
Proof.
  unfold coming_oid, after_creating. cbn.
  destruct (oids w) as [|a [|b l]]; reflexivity.
Qed.

Lemma accepts_built_anywhere scenarioData instructorId w w' :
  CTFScenarioSchema_accepts (built scenarioData instructorId w')
  = CTFScenarioSchema_accepts (built scenarioData instructorId w).
Proof.
  rewrite !accepts_built.
  destruct (Partial.scenario_id scenarioData); cbn [spread_over];
    [reflexivity | now rewrite !ObjectId_toString_not_empty].
Qed.

Lemma create_then_run ops scenarioData instructorId w this' w' :
  runState (createCTFScenario scenarioData instructorId) w = (Fulfilled this', w') ->
  runState (create_then ops scenarioData instructorId) w
  = runState (call_all ops this') w'.
Proof.
  intros H. unfold create_then. cbn [bind Monad_state runState]. now rewrite H.
Qed.

(** The store of [sample_world] takes every write. *)
Ltac all_taken :=
  let i := fresh "i" in
  intros i _; do 6 (destruct i as [|i]; [reflexivity |]); destruct i; reflexivity.

(* --------------------------------------------------------------------- *)
(** *** C1: publishing an archived record *)
(* --------------------------------------------------------------------- *)

(** C1, as it was worded, does not hold.  The stored record
    [valid_document archived false] has all that the schema requires and
    is archived, at version 3, last updated at 1769995000000.  [publish]
    on it is fulfilled: the record comes back published, at version 4 and
    updated at the time of the save.  No InvalidTransition is signalled,
    and status, version and [updated_at] have all changed. *)
Lemma publish_of_an_archived_record_goes_through :
  status (Doc.metadata (valid_document archived false)) = archived
  /\ version (Doc.metadata (valid_document archived false)) = 3%Z
  /\ updated_at (Doc.metadata (valid_document archived false)) = 1769995000000%Z
  /\ exists (this' : Doc.CTFScenarioDocument) (w' : World),
      runState (publish (valid_document archived false)) sample_world
      = (Fulfilled this', w')
      /\ status (Doc.metadata this') = published
      /\ version (Doc.metadata this') = 4%Z
      /\ updated_at (Doc.metadata this') = 1770000000004%Z.
Proof.
  split; [reflexivity |]. split; [reflexivity |]. split; [reflexivity |].
  eexists. eexists. split; [vm_compute; reflexivity |].
  cbn. repeat split.
Qed.

(** C1, amended.  [publish] on an archived record that the schema accepts
    and the store writes is carried out: the record comes back published,
    [updated_at] is the time of the save, and the version has gone up by
    one if the record had been stored before (and counts below 2^53), and
    is as it was if the record is new.  No call signals InvalidTransition
    of its own: a call is rejected only with ValidationError, when the
    schema turns the document down, or with the reason of the store, when
    the store refuses the write.  And no lifecycle method reads the status
    the document has: its outcome is the same from every status. *)
Theorem publish_is_carried_out_on_an_archived_record
    (this : Doc.CTFScenarioDocument) (w : World) :
  status (Doc.metadata this) = archived ->
  CTFScenarioSchema_accepts this = true ->
  hd None (writes w) = None ->
  (exists this' : Doc.CTFScenarioDocument,
      runState (publish this) w = (Fulfilled this', after_saving w)
      /\ status (Doc.metadata this') = published
      /\ updated_at (Doc.metadata this') = time_read w
      /\ version (Doc.metadata this')
         = (if Doc.isNew this then version (Doc.metadata this)
            else Number_add (version (Doc.metadata this)) 1)
      /\ (Doc.isNew this = false -> countable (version (Doc.metadata this)) ->
          version (Doc.metadata this') = (version (Doc.metadata this) + 1)%Z))
  /\ (forall (op : Operation) (that : Doc.CTFScenarioDocument) (w0 : World)
             (reason : string),
        fst (runState (call op that) w0) = Rejected reason ->
        (CTFScenarioSchema_accepts that = false /\ reason = "ValidationError")
        \/ hd None (writes w0) = Some reason)
  /\ (forall (op : Operation) (that : Doc.CTFScenarioDocument)
             (s : ScenarioStatus) (w0 : World),
        op <> Save ->
        runState (call op (in_status that s)) w0 = runState (call op that) w0).
Proof.
  intros _ Hacc Hw. split; [| split].
  - destruct (call_run Publish this w Hacc Hw) as (d & Hrun & Hmd & _).
    exists d. cbn [call] in Hrun. split; [exact Hrun |].
    rewrite Hmd. cbn. repeat split.
    intros Hnew Hc. rewrite Hnew. now apply Number_add_one.
  - intros op that w0 reason H.
    destruct (call_rejected op that w0 reason H) as [[Ha Hr]|[_ Hs]]; auto.
  - intros op that s w0 Hop. now rewrite call_forgets_the_status.
Qed.

Lemma publish_is_carried_out_on_an_archived_record_witness :
  exists this' : Doc.CTFScenarioDocument,
    runState (publish (valid_document archived false)) sample_world
    = (Fulfilled this', after_saving sample_world)
    /\ status (Doc.metadata this') = published
    /\ updated_at (Doc.metadata this') = 1770000000004%Z
    /\ version (Doc.metadata this') = 4%Z.
Proof.
  destruct (proj1 (publish_is_carried_out_on_an_archived_record
                     (valid_document archived false) sample_world
                     eq_refl eq_refl eq_refl))
    as (d & Hrun & Hst & Hup & _ & Hv).
  exists d. split; [exact Hrun |]. split; [exact Hst |].
  split; [exact Hup |]. apply Hv; reflexivity.
Defined.

(* --------------------------------------------------------------------- *)
(** *** C9: the lifecycle methods have no guard *)
(* --------------------------------------------------------------------- *)



(* --------------------------------------------------------------------- *)
(** *** C2: what a save does to version, dates and identity *)
(* --------------------------------------------------------------------- *)

(** C2, as it was worded, does not hold.  [publish] on the record
    [valid_document draft true], which has all that the schema requires
    and has not been stored yet, persists it and leaves its version at 1:
    the middleware adds one only to a document that is not new.  And a
    stored record whose version is 2^53 is saved with the same version,
    for the sum is rounded to a Number. *)
Lemma first_save_leaves_the_version :
  (version (Doc.metadata (valid_document draft true)) = 1%Z
   /\ exists (this' : Doc.CTFScenarioDocument) (w' : World),
       runState (publish (valid_document draft true)) sample_world
       = (Fulfilled this', w')
       /\ version (Doc.metadata this') = 1%Z)
  /\ (exists (this' : Doc.CTFScenarioDocument) (w' : World),
        runState
          (save (Doc.with_metadata (valid_document draft false)
                   (with_version (Doc.metadata (valid_document draft false))
                      9007199254740992)))
          sample_world
        = (Fulfilled this', w')
        /\ version (Doc.metadata this') = 9007199254740992%Z).
Proof.
  split; [split; [reflexivity |] |].
  - eexists. eexists. split; [vm_compute; reflexivity | reflexivity].
  - eexists. eexists. split; [vm_compute; reflexivity | reflexivity].
Qed.

(** C2, amended.  A call of [save], [publish], [archive] or [saveDraft] on
    a document that the schema accepts and the store writes sets
    [updated_at] to the time of the save and leaves [created_at], the
    identifier and the type as they are.  On a document stored before, it
    adds exactly one to a version that counts below 2^53; on a new one it
    leaves the version.  Across a run of such calls the version does not
    go down, and on a stored document it goes up by the number of calls,
    as long as it stays within 2^53.  The record [createCTFScenario]
    returns is at version 1 and stored. *)
Theorem every_later_save_advances_the_version
    (op : Operation) (this : Doc.CTFScenarioDocument) (w : World) :
  CTFScenarioSchema_accepts this = true ->
  hd None (writes w) = None ->
  (exists this' : Doc.CTFScenarioDocument,
      runState (call op this) w = (Fulfilled this', after_saving w)
      /\ (Doc.isNew this = false -> countable (version (Doc.metadata this)) ->
          version (Doc.metadata this') = (version (Doc.metadata this) + 1)%Z)
      /\ (Doc.isNew this = true ->
          version (Doc.metadata this') = version (Doc.metadata this))
      /\ updated_at (Doc.metadata this') = time_read w
      /\ created_at (Doc.metadata this') = created_at (Doc.metadata this)
      /\ Doc.scenario_id this' = Doc.scenario_id this
      /\ Doc.scenario_type this' = Doc.scenario_type this)
  /\ (forall (ops : list Operation) (w0 : World),
        writes_taken (List.length ops) w0 ->
        (version (Doc.metadata this) + Z.of_nat (List.length ops) <= 2 ^ 53)%Z ->
        exists (this' : Doc.CTFScenarioDocument) (w' : World),
          runState (call_all ops this) w0 = (Fulfilled this', w')
          /\ (version (Doc.metadata this) <= version (Doc.metadata this'))%Z
          /\ (Doc.isNew this = false ->
              version (Doc.metadata this')
              = (version (Doc.metadata this) + Z.of_nat (List.length ops))%Z)
          /\ created_at (Doc.metadata this') = created_at (Doc.metadata this)
          /\ Doc.scenario_id this' = Doc.scenario_id this
          /\ Doc.scenario_type this' = Doc.scenario_type this)
  /\ (forall (scenarioData : Partial.CTFScenario) (instructorId : string)
             (w0 : World),
        CTFScenarioSchema_accepts (built scenarioData instructorId w0) = true ->
        hd None (writes w0) = None ->
        exists this' : Doc.CTFScenarioDocument,
          runState (createCTFScenario scenarioData instructorId) w0
          = (Fulfilled this', after_creating w0)
          /\ version (Doc.metadata this') = 1%Z
          /\ Doc.isNew this' = false).
Proof.
  intros Hacc Hw. split; [| split].
  - destruct (call_run op this w Hacc Hw)
      as (d & Hrun & Hmd & _ & Hid & Hty & _).
    exists d. split; [exact Hrun |]. rewrite Hmd. cbn.
    split; [intros Hnew Hc; rewrite Hnew; now apply Number_add_one |].
    split; [intros Hnew; now rewrite Hnew |]. auto.
  - intros ops w0 Hw0 Hbound.
    destruct (call_all_run ops this w0 Hacc Hw0)
      as (d & w' & Hrun & _ & _ & _ & (Hcre & Hid & Hty) & _ & _ & Hver).
    destruct (Hver Hbound) as [Hle Hex].
    exists d, w'. auto 10.
  - intros scenarioData instructorId w0 Hacc0 Hw0.
    destruct (createCTFScenario_run scenarioData instructorId w0 Hacc0 Hw0)
      as (d & Hrun & Hmd & Hnew & _).
    exists d. split; [exact Hrun |]. rewrite Hmd. auto.
Qed.

Lemma every_later_save_advances_the_version_witness :
  (exists this' : Doc.CTFScenarioDocument,
      runState (archive (valid_document published false)) sample_world
      = (Fulfilled this', after_saving sample_world)
      /\ version (Doc.metadata this') = 4%Z
      /\ updated_at (Doc.metadata this') = 1770000000004%Z
      /\ created_at (Doc.metadata this') = 1769990000000%Z)
  /\ (exists (this' : Doc.CTFScenarioDocument) (w' : World),
        runState (call_all [Publish; Save; Archive]
                    (valid_document published false)) sample_world
        = (Fulfilled this', w')
        /\ version (Doc.metadata this') = 6%Z).
Proof.
  destruct (every_later_save_advances_the_version Archive
              (valid_document published false) sample_world eq_refl eq_refl)
    as ((d & Hrun & Hv & _ & Hup & Hcre & _) & Hruns & _).
  split.
  - exists d. split; [exact Hrun |].
    split; [apply Hv; reflexivity |]. split; [exact Hup | exact Hcre].
  - destruct (Hruns [Publish; Save; Archive] sample_world)
      as (d' & w' & Hrun' & _ & Hv' & _).
    + all_taken.
    + vm_compute. discriminate.
    + exists d', w'. split; [exact Hrun' |]. apply Hv'. reflexivity.
Defined.

(* --------------------------------------------------------------------- *)
(** *** C4: what [createCTFScenario] returns *)
(* --------------------------------------------------------------------- *)

(** C4, as it was worded, does not hold.  Not every partial record makes a
    record: the empty one is rejected with ValidationError.  And on the
    partial record [valid_partial (Some "uuid-123") None], which has all
    that the schema requires and an identifier of its own, the record that
    comes back carries that identifier, not the generated one, and its
    [updated_at], read by the save, is 9 milliseconds after its
    [created_at]. *)
Lemma own_identifier_and_save_time_prevail :
  fst (runState (createCTFScenario empty_partial "instructor@example.com")
         sample_world)
  = Rejected "ValidationError"
  /\ exists (this' : Doc.CTFScenarioDocument) (w' : World),
      runState (createCTFScenario (valid_partial (Some "uuid-123") None)
                  "instructor@example.com") sample_world
      = (Fulfilled this', w')
      /\ Doc.scenario_id this' = "uuid-123"
      /\ ObjectId_toString (coming_oid sample_world 0) = "65cc26be324286648aca9278"
      /\ created_at (Doc.metadata this') = 1770000000004%Z
      /\ updated_at (Doc.metadata this') = 1770000000013%Z.
Proof.
  split; [vm_compute; reflexivity |].
  eexists. eexists. split; [vm_compute; reflexivity |].
  cbn. repeat split.
Qed.

(** C4, amended.  When the document built from the partial record and the
    creator is accepted by the schema and written by the store,
    [createCTFScenario] returns a record of type ctf, in status draft, at
    version 1, created by the given creator and marked as LLM generated
    exactly when an LLM configuration was supplied.  Its identifier is the
    one of the partial record when there is one, and the text of a newly
    generated ObjectId otherwise.  [created_at] is the time read when the
    record is built, and [updated_at] the time read by the save that
    follows, so the two differ by what the clock moved in between.  Two
    calls on the same input without an identifier of its own return two
    records at version 1 and in status draft whose identifiers are the
    texts of the two ObjectIds generated, and so differ exactly when those
    ObjectIds do. *)
Theorem createCTFScenario_builds_a_first_version_draft
    (scenarioData : Partial.CTFScenario) (instructorId : string) (w : World) :
  CTFScenarioSchema_accepts (built scenarioData instructorId w) = true ->
  hd None (writes w) = None ->
  exists first : Doc.CTFScenarioDocument,
    runState (createCTFScenario scenarioData instructorId) w
    = (Fulfilled first, after_creating w)
    /\ Doc.scenario_type first = ctf
    /\ status (Doc.metadata first) = draft
    /\ version (Doc.metadata first) = 1%Z
    /\ created_by (Doc.metadata first) = instructorId
    /\ (llm_generated (Doc.metadata first) = true
        <-> Partial.llm_config scenarioData <> None)
    /\ Doc.scenario_id first
       = match Partial.scenario_id scenarioData with
         | Some own => own
         | None => ObjectId_toString (coming_oid w 0)
         end
    /\ created_at (Doc.metadata first) = time_read w
    /\ updated_at (Doc.metadata first)
       = (created_at (Doc.metadata first) + (advance w 1 + advance w 2))%Z
    /\ (Partial.scenario_id scenarioData = None ->
        hd None (writes (after_creating w)) = None ->
        exists second : Doc.CTFScenarioDocument,
          runState (createCTFScenario scenarioData instructorId) (after_creating w)
          = (Fulfilled second, after_creating (after_creating w))
          /\ version (Doc.metadata second) = 1%Z
          /\ status (Doc.metadata second) = draft
          /\ Doc.scenario_id second = ObjectId_toString (coming_oid w 1)
          /\ (twelve_bytes (coming_oid w 0) -> twelve_bytes (coming_oid w 1) ->
              (Doc.scenario_id first = Doc.scenario_id second
               <-> coming_oid w 0 = coming_oid w 1))).
Proof.
  intros Hacc Hw.
  destruct (createCTFScenario_run scenarioData instructorId w Hacc Hw)
    as (d & Hrun & Hmd & _ & Hid & Hty & _).
  exists d. split; [exact Hrun |]. split; [exact Hty |].
  rewrite Hmd. cbn [status version created_by llm_generated created_at updated_at].
  split; [reflexivity |]. split; [reflexivity |]. split; [reflexivity |].
  split.
  { destruct (Partial.llm_config scenarioData); cbn; split;
      congruence. }
  split; [exact Hid |]. split; [reflexivity |]. split; [lia |].
  intros Hown Hw'.
  assert (Hacc' : CTFScenarioSchema_accepts
                    (built scenarioData instructorId (after_creating w)) = true)
    by (rewrite (accepts_built_anywhere scenarioData instructorId w); exact Hacc).
  destruct (createCTFScenario_run scenarioData instructorId (after_creating w)
              Hacc' Hw')
    as (d' & Hrun' & Hmd' & _ & Hid' & _).
  exists d'. split; [exact Hrun' |]. rewrite Hmd'.
  split; [reflexivity |]. split; [reflexivity |].
  rewrite Hown, coming_oid_after_creating in Hid'. rewrite Hown in Hid.
  split; [exact Hid' |].
  intros H0 H1. rewrite Hid, Hid'. split.
  - now apply ObjectId_toString_inj.
  - now intros ->.
Qed.

Lemma createCTFScenario_builds_a_first_version_draft_witness :
  exists first second : Doc.CTFScenarioDocument,
    runState (createCTFScenario (valid_partial None (Some sample_llm_config))
                "instructor@example.com") sample_world
    = (Fulfilled first, after_creating sample_world)
    /\ runState (createCTFScenario (valid_partial None (Some sample_llm_config))
                   "instructor@example.com") (after_creating sample_world)
       = (Fulfilled second, after_creating (after_creating sample_world))
    /\ version (Doc.metadata first) = 1%Z
    /\ status (Doc.metadata first) = draft
    /\ llm_generated (Doc.metadata first) = true
    /\ Doc.scenario_id first = "65cc26be324286648aca9278"
    /\ Doc.scenario_id second = "65cc26be324286648aca9279"
    /\ Doc.scenario_id first <> Doc.scenario_id second.
Proof.
  destruct (createCTFScenario_builds_a_first_version_draft
              (valid_partial None (Some sample_llm_config))
              "instructor@example.com" sample_world eq_refl eq_refl)
    as (d & Hrun & _ & Hst & Hv & _ & Hllm & Hid & _ & _ & Htwo).
  destruct (Htwo eq_refl eq_refl) as (d' & Hrun' & _ & _ & Hid' & Hdiff).
  exists d, d'. split; [exact Hrun |]. split; [exact Hrun' |].
  split; [exact Hv |]. split; [exact Hst |].
  split; [apply Hllm; discriminate |].
  split; [exact Hid |]. split; [exact Hid' |].
  intros E. apply Hdiff in E; [discriminate E | reflexivity | reflexivity].
Defined.

(* --------------------------------------------------------------------- *)
(** *** Runs of calls *)
(* --------------------------------------------------------------------- *)



(** X8.  Saving and the lifecycle methods never touch what the record is
    about: after a run of calls that are all accepted and written, the
    basic information, the game content, the LLM configuration, the custom
    instructions, the gamification settings, the creator and the LLM mark
    are the ones the document had. *)
Theorem lifecycle_calls_leave_the_content_alone
    (ops : list Operation) (this : Doc.CTFScenarioDocument) (w : World) :
  CTFScenarioSchema_accepts this = true ->
  writes_taken (List.length ops) w ->
  exists (this' : Doc.CTFScenarioDocument) (w' : World),
    runState (call_all ops this) w = (Fulfilled this', w')
    /\ Doc.basic_info this' = Doc.basic_info this
    /\ Doc.game_content this' = Doc.game_content this
    /\ Doc.llm_config this' = Doc.llm_config this
    /\ Doc.custom_instructions this' = Doc.custom_instructions this
    /\ Doc.gamification_config this' = Doc.gamification_config this
    /\ created_by (Doc.metadata this') = created_by (Doc.metadata this)
    /\ llm_generated (Doc.metadata this') = llm_generated (Doc.metadata this).
Proof.
  intros Hacc Hw.
  destruct (call_all_run ops this w Hacc Hw)
    as (d & w' & Hrun & _ & _ & Hframe & _).
  exists d, w'. split; [exact Hrun | exact Hframe].
Qed.

Lemma lifecycle_calls_leave_the_content_alone_witness :
  exists (this' : Doc.CTFScenarioDocument) (w' : World),
    runState (call_all [Publish; Archive; SaveDraft]
                (valid_document pending_review true)) sample_world
    = (Fulfilled this', w')
    /\ Doc.game_content this' = Some valid_game_content
    /\ created_by (Doc.metadata this') = "instructor@example.com".
Proof.
  destruct (lifecycle_calls_leave_the_content_alone
              [Publish; Archive; SaveDraft]
              (valid_document pending_review true) sample_world)
    as (d & w' & Hrun & _ & Hgc & _ & _ & _ & Hby & _).
  - reflexivity.
  - all_taken.
  - exists d, w'. split; [exact Hrun |]. split; [exact Hgc | exact Hby].
Defined.

(** X9.  After a run of calls that is not empty, all accepted and written,
    [updated_at] is the time of the last save, the time last read from the
    clock, and the document is stored.  Saving draws no ObjectId. *)
Theorem updated_at_follows_the_clock
    (ops : list Operation) (this : Doc.CTFScenarioDocument) (w : World) :
  ops <> [] ->
  CTFScenarioSchema_accepts this = true ->
  writes_taken (List.length ops) w ->
  exists (this' : Doc.CTFScenarioDocument) (w' : World),
    runState (call_all ops this) w = (Fulfilled this', w')
    /\ updated_at (Doc.metadata this') = clock w'
    /\ Doc.isNew this' = false
    /\ oids w' = oids w.
Proof.
  intros Hne Hacc Hw.
  destruct (call_all_run ops this w Hacc Hw)
    as (d & w' & Hrun & _ & _ & _ & _ & Hup & Hoid & _).
  destruct (Hup Hne) as [H1 H2].
  exists d, w'. auto.
Qed.

Lemma updated_at_follows_the_clock_witness :
  exists (this' : Doc.CTFScenarioDocument) (w' : World),
    runState (call_all [Publish; Archive] (valid_document draft false))
             sample_world
    = (Fulfilled this', w')
    /\ updated_at (Doc.metadata this') = clock w'
    /\ Doc.isNew this' = false.
Proof.
  destruct (updated_at_follows_the_clock [Publish; Archive]
              (valid_document draft false) sample_world)
    as (d & w' & Hrun & Hup & Hnew & _).
  - discriminate.
  - reflexivity.
  - all_taken.
  - exists d, w'. split; [exact Hrun |]. split; [exact Hup | exact Hnew].
Defined.

(** X10.  The virtuals after a lifecycle call.  A published document is
    never editable.  On a document that the schema accepts and the store
    writes, [publish] returns a document that is published and not
    editable, [archive] one that is neither, and [saveDraft] one that is
    editable and not published, whatever the document was before. *)
Theorem virtuals_after_a_lifecycle_call
    (this : Doc.CTFScenarioDocument) (w : World) :
  CTFScenarioSchema_accepts this = true ->
  hd None (writes w) = None ->
  (forall d : Doc.CTFScenarioDocument,
      isPublished d = true -> isEditable d = false)
  /\ (exists this' : Doc.CTFScenarioDocument,
        runState (publish this) w = (Fulfilled this', after_saving w)
        /\ isPublished this' = true /\ isEditable this' = false)
  /\ (exists this' : Doc.CTFScenarioDocument,
        runState (archive this) w = (Fulfilled this', after_saving w)
        /\ isPublished this' = false /\ isEditable this' = false)
  /\ (exists this' : Doc.CTFScenarioDocument,
        runState (saveDraft this) w = (Fulfilled this', after_saving w)
        /\ isPublished this' = false /\ isEditable this' = true).
Proof.
  intros Hacc Hw. split; [| split; [| split]].
  - intros d. unfold isPublished, isEditable.
    destruct (status (Doc.metadata d)); simpl; congruence.
  - destruct (call_run Publish this w Hacc Hw) as (d & Hrun & Hmd & _).
    exists d. unfold isPublished, isEditable. rewrite Hmd. auto.
  - destruct (call_run Archive this w Hacc Hw) as (d & Hrun & Hmd & _).
    exists d. unfold isPublished, isEditable. rewrite Hmd. auto.
  - destruct (call_run SaveDraft this w Hacc Hw) as (d & Hrun & Hmd & _).
    exists d. unfold isPublished, isEditable. rewrite Hmd. auto.
Qed.

Lemma virtuals_after_a_lifecycle_call_witness :
  exists this' : Doc.CTFScenarioDocument,
    runState (saveDraft (valid_document published false)) sample_world
    = (Fulfilled this', after_saving sample_world)
    /\ isPublished this' = false /\ isEditable this' = true.
Proof.
  exact (proj2 (proj2 (proj2
           (virtuals_after_a_lifecycle_call
              (valid_document published false) sample_world
              eq_refl eq_refl)))).
Defined.

(** X11.  A record from [createCTFScenario] on which calls follow, all of
    them accepted and written: after [n] calls the version is [1 + n], as
    long as that is within 2^53; the status is the one the calls set
    starting from draft; the creator and [created_at] are those of the
    creation; and the basic information and the game content are those of
    the input as the setters of the schema left them, trimmed.  So
    creating, publishing and archiving ends at version 3. *)
Theorem a_created_record_counts_its_saves
    (ops : list Operation) (scenarioData : Partial.CTFScenario)
    (instructorId : string) (w : World) :
  CTFScenarioSchema_accepts (built scenarioData instructorId w) = true ->
  writes_taken (S (List.length ops)) w ->
  (1 + Z.of_nat (List.length ops) <= 2 ^ 53)%Z ->
  exists (this' : Doc.CTFScenarioDocument) (w' : World),
    runState (create_then ops scenarioData instructorId) w
    = (Fulfilled this', w')
    /\ version (Doc.metadata this') = (1 + Z.of_nat (List.length ops))%Z
    /\ status (Doc.metadata this') = status_after_all ops draft
    /\ created_by (Doc.metadata this') = instructorId
    /\ created_at (Doc.metadata this') = time_read w
    /\ Doc.basic_info this'
       = option_map BasicInfoSchema_set (Partial.basic_info scenarioData)
    /\ Doc.game_content this'
       = option_map GameContentSchema_set (Partial.game_content scenarioData).
Proof.
  intros Hacc Hw Hbound.
  apply writes_taken_next in Hw as [Hw0 Hw].
  apply (writes_taken_writes _ _ (after_creating w) eq_refl) in Hw.
  destruct (createCTFScenario_run scenarioData instructorId w Hacc Hw0)
    as (d & Hrun & Hmd & Hnew & _ & _ & (Hbi & Hgc & _) & Hacc').
  destruct (call_all_run ops d (after_creating w) Hacc' Hw)
    as (d' & w' & Hrun' & _ & Hst & (Kbi & Kgc & _ & _ & _ & Kby & _)
        & (Kcre & _) & _ & _ & Hver).
  rewrite Hmd in Hst, Kby, Kcre, Hver.
  cbn [status created_by created_at version] in Hst, Kby, Kcre, Hver.
  destruct (Hver Hbound) as [_ Hex].
  exists d', w'.
  split; [rewrite (create_then_run _ _ _ _ _ _ Hrun); exact Hrun' |].
  rewrite (Hex Hnew), Hst, Kby, Kcre, Kbi, Kgc, Hbi, Hgc. auto 10.
Qed.

Lemma a_created_record_counts_its_saves_witness :
  exists (this' : Doc.CTFScenarioDocument) (w' : World),
    runState (create_then [Publish; Archive] (valid_partial None None)
                "instructor@example.com") sample_world
    = (Fulfilled this', w')
    /\ version (Doc.metadata this') = 3%Z
    /\ status (Doc.metadata this') = archived.
Proof.
  destruct (a_created_record_counts_its_saves [Publish; Archive]
              (valid_partial None None) "instructor@example.com" sample_world)
    as (d & w' & Hrun & Hv & Hst & _).
  - reflexivity.
  - all_taken.
  - vm_compute. discriminate.
  - exists d, w'. split; [exact Hrun |]. split; [exact Hv | exact Hst].
Defined.



(** X22.  [createCTFScenario] without basic information, without game
    content or with an empty creator is rejected with ValidationError.
    Nothing is handed to the store; the ObjectId it generated and the two
    readings of the clock are used up. *)
Theorem createCTFScenario_rejects_what_the_schema_requires
    (scenarioData : Partial.CTFScenario) (instructorId : string) (w : World) :
  Partial.basic_info scenarioData = None
  \/ Partial.game_content scenarioData = None
  \/ instructorId = "" ->
  runState (createCTFScenario scenarioData instructorId) w
  = (Rejected "ValidationError", at_the_save w)
  /\ writes (at_the_save w) = writes w
  /\ oids (at_the_save w) = tl (oids w).
Proof.
  intros H. split; [| split; reflexivity].
  apply createCTFScenario_invalid. rewrite accepts_built.
  destruct H as [H | [H | H]]; rewrite H; cbn;
    rewrite ?andb_false_r; reflexivity.
Qed.

Lemma createCTFScenario_rejects_what_the_schema_requires_witness :
  runState (createCTFScenario (valid_partial None None) "") sample_world
  = (Rejected "ValidationError", at_the_save sample_world).
Proof.
  apply (proj1 (createCTFScenario_rejects_what_the_schema_requires
                  (valid_partial None None) "" sample_world
                  (or_intror (or_intror eq_refl)))).
Defined.



(** X24.  The schema counts the description as the setter left it,
    trimmed: game content whose description has fewer than 300 characters
    once the blanks around it are gone is rejected by [createCTFScenario]
    with ValidationError, however long the text handed in was. *)
Theorem createCTFScenario_counts_the_trimmed_description
    (scenarioData : Partial.CTFScenario) (g : CTFGameContent)
    (instructorId : string) (w : World) :
  Partial.game_content scenarioData = Some g ->
  String.length (trim (description g)) < 300 ->
  runState (createCTFScenario scenarioData instructorId) w
  = (Rejected "ValidationError", at_the_save w).
Proof.
  intros Hg Hshort.
  apply createCTFScenario_invalid. rewrite accepts_built, Hg.
  cbn [option_map required_doc]. unfold GameContentSchema_accepts.
  cbn [description GameContentSchema_set].
  assert (E : minlength 300 (trim (description g)) = false)
    by (apply Nat.leb_gt; exact Hshort).
  rewrite E. rewrite ?andb_false_r. cbn [andb].
  rewrite ?andb_false_r. reflexivity.
Qed.

Lemma createCTFScenario_counts_the_trimmed_description_witness :
  String.length (filler 299 ++ " ") = 300
  /\ valid (validateCTFScenarioData
              (data_with (Some (filler 299 ++ " ")) (Some "CTF{packet_master}")
                 (Some (sample_hints 3)) (Some [sample_solution])
                 (Some ["Analyze packets"])))
     = true
  /\ runState
       (createCTFScenario
          (with_game_content (valid_partial None None)
             (with_description valid_game_content (filler 299 ++ " ")))
          "instructor@example.com") sample_world
     = (Rejected "ValidationError", at_the_save sample_world).
Proof.
  split; [reflexivity |]. split; [vm_compute; reflexivity |].
  apply (createCTFScenario_counts_the_trimmed_description
           (with_game_content (valid_partial None None)
              (with_description valid_game_content (filler 299 ++ " ")))
           (with_description valid_game_content (filler 299 ++ " "))
           "instructor@example.com" sample_world eq_refl).
  vm_compute. lia.
Defined.

End Lifecycle.
